(** * llvmlite FFI bridge: attribute cursors, pass-manager-builder
      properties and basic-block extraction

    A shallow embedding of [ffi/attribute.cpp] and [ffi/transforms.cpp].
    Objects the C++ code reaches through pointers live in an explicit heap
    (a [gmap] from addresses to objects); a nullable pointer is an
    [option] of an address.  Calls that the C++ standard leaves undefined
    (dereferencing a null or dangling pointer, a failed [cast<>]) and calls
    that end in [llvm::report_fatal_error] are separate outcomes. *)

From Stdlib Require Import Ascii.
From stdpp Require Import base numbers option list strings gmap pretty.

Local Open Scope Z_scope.

(** ** Outcomes of a call *)

(** A call returns a value, ends the process in [report_fatal_error] with a
    message, or has undefined behaviour. *)
Inductive Outcome (A : Type) : Type :=
  | Ret (a : A)
  | Fatal (msg : string)
  | Undefined.
Arguments Ret {A} a.
Arguments Fatal {A} msg.
Arguments Undefined {A}.

#[global] Instance outcome_ret : MRet Outcome := fun A a => Ret a.

#[global] Instance outcome_bind : MBind Outcome := fun A B k m =>
  match m with
  | Ret a => k a
  | Fatal msg => Fatal msg
  | Undefined => Undefined
  end.

(** [llvm::report_fatal_error] on a C string: declared noreturn. *)
Definition report_fatal_error {A : Type} (reason : string) : Outcome A := Fatal reason.

(** [p->...] on a pointer [p]: undefined when [p] is null. *)
Definition deref {A : Type} (p : option A) : Outcome A :=
  match p with
  | Some a => Ret a
  | None => Undefined
  end.

(** ** Strings *)

(** [std::to_string] on a line number. *)
Definition std_to_string (n : N) : string := pretty n.

(** [std::replace(first, last, old_value, new_value)] over the characters of
    a [std::string]. *)
Fixpoint std_replace (s : string) (old_value new_value : Ascii.ascii) : string :=
  match s with
  | EmptyString => EmptyString
  | String c rest =>
      String (if Ascii.eqb c old_value then new_value else c)
             (std_replace rest old_value new_value)
  end.

(** Does character [c] occur in [s]? *)
Fixpoint occurs (c : Ascii.ascii) (s : string) : bool :=
  match s with
  | EmptyString => false
  | String d rest => Ascii.eqb d c || occurs c rest
  end.

(** ** LLVM data the bridge handles *)

(** [llvm::AttributeImpl]: an attribute is stored as exactly one of four
    entry kinds. *)
Inductive AttrEntryKind : Set :=
  | EnumAttrEntry
  | IntAttrEntry
  | StringAttrEntry
  | TypeAttrEntry.

#[global] Instance AttrEntryKind_eq_dec : EqDecision AttrEntryKind.
Proof. solve_decision. Defined.

Record AttributeImpl : Set := {
  KindID : AttrEntryKind;
  KindAsEnum : Z;          (* Attribute::AttrKind, 0 for a string attribute *)
  AsString : string        (* what getAsString prints *)
}.

(** [llvm::Attribute] is a value class around a nullable [AttributeImpl*];
    [LLVMAttributeRef] is that raw pointer. *)
Record Attribute : Set := { pImpl : option AttributeImpl }.

Abbreviation LLVMAttributeRef := (option AttributeImpl) (only parsing).

Definition wrap_Attribute (a : Attribute) : LLVMAttributeRef := pImpl a.
Definition unwrap_Attribute (A : LLVMAttributeRef) : Attribute := {| pImpl := A |}.

Definition isEnumAttribute (a : Attribute) : bool :=
  match pImpl a with
  | Some i => bool_decide (KindID i = EnumAttrEntry)
  | None => false
  end.

Definition isIntAttribute (a : Attribute) : bool :=
  match pImpl a with
  | Some i => bool_decide (KindID i = IntAttrEntry)
  | None => false
  end.

Definition isStringAttribute (a : Attribute) : bool :=
  match pImpl a with
  | Some i => bool_decide (KindID i = StringAttrEntry)
  | None => false
  end.

Definition isTypeAttribute (a : Attribute) : bool :=
  match pImpl a with
  | Some i => bool_decide (KindID i = TypeAttrEntry)
  | None => false
  end.

(** An attribute set is the array of its attributes; every attribute stored
    in a set is a valid one, so an element is given by its impl.  An
    attribute list is the array of its attribute sets, in slot order
    (function, return value, then the arguments). *)
Abbreviation AttributeSet := (list AttributeImpl) (only parsing).
Abbreviation AttributeList := (list (list AttributeImpl)) (only parsing).

(** [AttributeList::getParamAttrs(ArgNo)] (named [getParamAttributes] before
    LLVM 14): the set in the argument's slot, the empty set when the list has
    no such slot. *)
Definition getParamAttrs (l : AttributeList) (ArgNo : nat) : AttributeSet :=
  default [] (l !! (ArgNo + 2)%nat).

(** [llvm::ValueSymbolTable] of a module as one of its functions sees it:
    the names of the other values of the module, and the counter behind the
    suffixes that make a name unique. *)
Record ValueSymbolTable : Type := {
  vmap : list string;
  LastUnique : N
}.

(** [ValueSymbolTable::makeUniqueName] for a global value (of a module whose
    target is not NVPTX): append '.' and the next number until the name is
    not in the table.  [fuel] bounds the loop; as many rounds as the table
    has names always reach a free name ([makeUniqueName_free]). *)
Fixpoint makeUniqueName (fuel : nat) (taken : list string) (Last : N)
    (UniqueName : string) : string * N :=
  let candidate := UniqueName +:+ "." +:+ pretty (N.succ Last) in
  match fuel with
  | O => (candidate, N.succ Last)
  | S fuel' =>
      if decide (candidate ∈ taken)
      then makeUniqueName fuel' taken (N.succ Last) UniqueName
      else (candidate, N.succ Last)
  end.

(** [ValueSymbolTable::createValueName]: the name itself when it is not in
    the table, a unique name made from it otherwise. *)
Definition createValueName (ST : ValueSymbolTable) (Name : string)
  : string * ValueSymbolTable :=
  if decide (Name ∈ vmap ST)
  then
    let r := makeUniqueName (length (vmap ST)) (vmap ST) (LastUnique ST) Name in
    (r.1, {| vmap := vmap ST; LastUnique := r.2 |})
  else (Name, ST).

Record Function : Type := {
  fn_name : string;
  fn_attributes : AttributeList;
  fn_symtab : ValueSymbolTable     (* the symbol table of the function's module *)
}.

(** [Value::getName], and [Value::setName] on a function of a module: nothing
    happens when the name does not change; otherwise the old name leaves the
    symbol table and the new one, when not empty, is entered in it, made
    unique if another value of the module has it. *)
Definition getName (f : Function) : string := fn_name f.
Definition setName (f : Function) (Name : string) : Function :=
  if decide (getName f = Name) then f
  else
    match Name with
    | EmptyString =>
        {| fn_name := EmptyString; fn_attributes := fn_attributes f;
           fn_symtab := fn_symtab f |}
    | _ =>
        let r := createValueName (fn_symtab f) Name in
        {| fn_name := r.1; fn_attributes := fn_attributes f; fn_symtab := r.2 |}
    end.

Record BasicBlock : Type := {
  bb_name : string;
  bb_parent : option string     (* name of the function the block is in *)
}.

Record Argument : Type := {
  ArgNo : nat;
  arg_parent : Function
}.

Record GlobalVariable : Type := {
  gv_name : string;
  gv_attributes : AttributeSet
}.

(** What an [LLVMValueRef] can point to. *)
Inductive Value : Type :=
  | VFunction (f : Function)
  | VBasicBlock (b : BasicBlock)
  | VArgument (a : Argument)
  | VCallInst (attrs : AttributeList)
  | VInvokeInst (attrs : AttributeList)
  | VGlobalVariable (g : GlobalVariable)
  | VConstantInt (n : Z).

(** [llvm::dyn_cast<T>]: null when the value is of another kind. *)
Definition dyn_cast_Function (v : Value) : option Function :=
  match v with VFunction f => Some f | _ => None end.

Definition dyn_cast_BasicBlock (v : Value) : option BasicBlock :=
  match v with VBasicBlock b => Some b | _ => None end.

(** [llvm::unwrap<T>] is [cast<T>]: undefined on a value of another kind. *)
Definition unwrap_Function (v : Value) : Outcome Function :=
  deref (dyn_cast_Function v).

Definition unwrap_Argument (v : Value) : Outcome Argument :=
  match v with VArgument a => Ret a | _ => Undefined end.

Definition unwrap_CallInst (v : Value) : Outcome AttributeList :=
  match v with VCallInst l => Ret l | _ => Undefined end.

Definition unwrap_InvokeInst (v : Value) : Outcome AttributeList :=
  match v with VInvokeInst l => Ret l | _ => Undefined end.

Definition unwrap_GlobalVariable (v : Value) : Outcome GlobalVariable :=
  match v with VGlobalVariable g => Ret g | _ => Undefined end.


(** ** Cursors and the heap *)

(** A [const_iterator] of [AttributeList] or [AttributeSet] is a pointer into
    an array: the array and an offset into it. *)
Record const_iterator (A : Type) : Type := ConstIterator {
  base : list A;
  off : nat
}.
Arguments ConstIterator {A} base off.
Arguments base {A} _.
Arguments off {A} _.

Definition begin {A : Type} (arr : list A) : const_iterator A :=
  ConstIterator arr 0.
Definition end_ {A : Type} (arr : list A) : const_iterator A :=
  ConstIterator arr (length arr).

(** [p != q] for two pointers into one array. *)
Definition iter_neq {A : Type} (p q : const_iterator A) : bool :=
  negb (Nat.eqb (off p) (off q)).

(** [*p]: undefined past the last element. *)
Definition iter_deref {A : Type} (p : const_iterator A) : Outcome A :=
  deref (base p !! off p).

(** [p++]. *)
Definition iter_incr {A : Type} (p : const_iterator A) : const_iterator A :=
  ConstIterator (base p) (S (off p)).

(** An iterator around an attribute list, including the stop condition. *)
Record AttributeListIterator : Type := {
  list_cur : const_iterator (list AttributeImpl);
  list_end : const_iterator (list AttributeImpl)
}.

(** An iterator around an attribute set, including the stop condition. *)
Record AttributeSetIterator : Type := {
  set_cur : const_iterator AttributeImpl;
  set_end : const_iterator AttributeImpl
}.

(** [llvm::PassManagerBuilder]: the levels are [unsigned] fields, the
    toggles are [bool] fields. *)
Record PassManagerBuilder : Type := {
  OptLevel : Z;
  SizeLevel : Z;
  Inliner : option Z;
  DisableUnrollLoops : bool;
  SLPVectorize : bool;
  LoopVectorize : bool
}.

Inductive Object : Type :=
  | ObjAttributeListIterator (it : AttributeListIterator)
  | ObjAttributeSetIterator (it : AttributeSetIterator)
  | ObjPassManagerBuilder (b : PassManagerBuilder).

(** Addresses, pointers ([None] is [NULL]) and the heap of live objects. *)
Abbreviation addr := positive (only parsing).
Abbreviation ptr := (option positive) (only parsing).
Abbreviation Heap := (gmap positive Object) (only parsing).

Definition NULL : ptr := None.

(** A call that reads and writes the heap. *)
Definition M (A : Type) : Type := Heap -> Outcome (A * Heap).

#[global] Instance M_ret : MRet M := fun A a h => Ret (a, h).

#[global] Instance M_bind : MBind M := fun A B k m h =>
  match m h with
  | Ret (a, h') => k a h'
  | Fatal msg => Fatal msg
  | Undefined => Undefined
  end.

Definition lift {A : Type} (o : Outcome A) : M A := fun h =>
  match o with
  | Ret a => Ret (a, h)
  | Fatal msg => Fatal msg
  | Undefined => Undefined
  end.

(** [new T(...)]: a fresh address, never null. *)
Definition new (o : Object) : M ptr := fun h =>
  let a := fresh (dom h) in Ret (Some a, <[a := o]> h).

(** [delete p]: a no-op on null, undefined on a dangling pointer. *)
Definition delete_ (p : ptr) : M unit := fun h =>
  match p with
  | None => Ret (tt, h)
  | Some a =>
      match h !! a with
      | Some _ => Ret (tt, delete a h)
      | None => Undefined
      end
  end.

(** Reading the object a pointer refers to; null and dangling pointers are
    undefined. *)
Definition load (p : ptr) : M Object := fun h =>
  match p with
  | Some a => match h !! a with Some o => Ret (o, h) | None => Undefined end
  | None => Undefined
  end.

(** Writing through a pointer to a live object. *)
Definition store (p : ptr) (o : Object) : M unit := fun h =>
  match p with
  | Some a => match h !! a with Some _ => Ret (tt, <[a := o]> h) | None => Undefined end
  | None => Undefined
  end.

(** The [unwrap] overloads are [reinterpret_cast]s; using the result as an
    object of another type is undefined. *)
Definition unwrap_AttributeListIterator (GI : ptr) : M AttributeListIterator :=
  o ← load GI;
  match o with ObjAttributeListIterator it => mret it | _ => lift Undefined end.

Definition unwrap_AttributeSetIterator (GI : ptr) : M AttributeSetIterator :=
  o ← load GI;
  match o with ObjAttributeSetIterator it => mret it | _ => lift Undefined end.

Definition unwrap_PassManagerBuilder (PMB : ptr) : M PassManagerBuilder :=
  o ← load PMB;
  match o with ObjPassManagerBuilder b => mret b | _ => lift Undefined end.

(** ** attribute.cpp *)

Definition new_AttributeListIterator (attrs : AttributeList) : M ptr :=
  new (ObjAttributeListIterator {| list_cur := begin attrs; list_end := end_ attrs |}).

Definition new_AttributeSetIterator (attrs : AttributeSet) : M ptr :=
  new (ObjAttributeSetIterator {| set_cur := begin attrs; set_end := end_ attrs |}).

Definition LLVMPY_FunctionAttributesIter (F : Value) : M ptr :=
  func ← lift (unwrap_Function F);
  let attrs := fn_attributes func in
  new_AttributeListIterator attrs.

Definition LLVMPY_ArgumentAttributesIter (A : Value) : M ptr :=
  arg ← lift (unwrap_Argument A);
  let argno := ArgNo arg in
  let attrs := getParamAttrs (fn_attributes (arg_parent arg)) argno in
  new_AttributeSetIterator attrs.

Definition LLVMPY_CallInstAttributesIter (C : Value) : M ptr :=
  attrs ← lift (unwrap_CallInst C);
  new_AttributeListIterator attrs.

Definition LLVMPY_InvokeInstAttributesIter (C : Value) : M ptr :=
  attrs ← lift (unwrap_InvokeInst C);
  new_AttributeListIterator attrs.

Definition LLVMPY_GlobalAttributesIter (G : Value) : M ptr :=
  g ← lift (unwrap_GlobalVariable G);
  let attrs := gv_attributes g in
  new_AttributeSetIterator attrs.

Definition LLVMPY_AttributeListIterNext (GI : ptr) : M ptr :=
  iter ← unwrap_AttributeListIterator GI;
  if iter_neq (list_cur iter) (list_end iter) then
    let attrs := list_cur iter in
    store GI (ObjAttributeListIterator
                {| list_cur := iter_incr (list_cur iter); list_end := list_end iter |});;
    set ← lift (iter_deref attrs);
    new_AttributeSetIterator set
  else mret NULL.

Definition LLVMPY_AttributeSetIterNext (GI : ptr) : M LLVMAttributeRef :=
  iter ← unwrap_AttributeSetIterator GI;
  if iter_neq (set_cur iter) (set_end iter) then
    let attr := set_cur iter in
    store GI (ObjAttributeSetIterator
                {| set_cur := iter_incr (set_cur iter); set_end := set_end iter |});;
    a ← lift (iter_deref attr);
    mret (wrap_Attribute {| pImpl := Some a |})
  else mret None.

Definition LLVMPY_DisposeAttributeListIter (GI : ptr) : M unit := delete_ GI.

Definition LLVMPY_DisposeAttributeSetIter (GI : ptr) : M unit := delete_ GI.

Section EnumAttributeKinds.

(** The names LLVM registers for its [Attribute::AttrKind] enumerators.
    The table belongs to the linked LLVM; [Attribute::None] is 0 and has no
    name, the enumerators after it count from 1. *)
Variable AttrKindNames : gmap string positive.

(** [Attribute::getAttrKindFromName]. *)
Definition getAttrKindFromName (AttrName : string) : Z :=
  match AttrKindNames !! AttrName with
  | Some k => Z.pos k
  | None => 0
  end.

(** [StringRef(Name, SLen)]: the first [SLen] bytes at [Name]. *)
Definition StringRef (Name : string) (SLen : nat) : string :=
  String.substring 0 SLen Name.

Definition LLVMGetEnumAttributeKindForName (Name : string) (SLen : nat) : Z :=
  getAttrKindFromName (StringRef Name SLen).

(* zero is returned if no match *)
Definition LLVMPY_GetEnumAttributeKindForName (name : string) (len : nat) : Z :=
  LLVMGetEnumAttributeKindForName name len.

End EnumAttributeKinds.

Definition LLVMPY_AttributeIsType (A : LLVMAttributeRef) : bool :=
  let attr := unwrap_Attribute A in
  isTypeAttribute attr.

Definition LLVMPY_AttributeIsInt (A : LLVMAttributeRef) : bool :=
  let attr := unwrap_Attribute A in
  isIntAttribute attr.

Definition LLVMPY_AttributeIsEnum (A : LLVMAttributeRef) : bool :=
  let attr := unwrap_Attribute A in
  isEnumAttribute attr.

Definition LLVMPY_AttributeIsString (A : LLVMAttributeRef) : bool :=
  let attr := unwrap_Attribute A in
  isStringAttribute attr.

(** ** transforms.cpp *)

(** A value received as a 32-bit [unsigned]. *)
Definition to_unsigned (v : Z) : Z := v mod 2 ^ 32.

(** The range of [int] (and of [LLVMBool], which is [int]). *)
Definition int_range (v : Z) : Prop := - 2 ^ 31 <= v < 2 ^ 31.

(** Conversions between [int] and [bool]. *)
Definition bool_of_int (v : Z) : bool := negb (v =? 0).
Definition int_of_bool (b : bool) : Z := if b then 1 else 0.

Definition with_OptLevel (b : PassManagerBuilder) (v : Z) : PassManagerBuilder :=
  {| OptLevel := v; SizeLevel := SizeLevel b; Inliner := Inliner b;
     DisableUnrollLoops := DisableUnrollLoops b; SLPVectorize := SLPVectorize b;
     LoopVectorize := LoopVectorize b |}.

Definition with_SizeLevel (b : PassManagerBuilder) (v : Z) : PassManagerBuilder :=
  {| OptLevel := OptLevel b; SizeLevel := v; Inliner := Inliner b;
     DisableUnrollLoops := DisableUnrollLoops b; SLPVectorize := SLPVectorize b;
     LoopVectorize := LoopVectorize b |}.

Definition with_DisableUnrollLoops (b : PassManagerBuilder) (v : bool) : PassManagerBuilder :=
  {| OptLevel := OptLevel b; SizeLevel := SizeLevel b; Inliner := Inliner b;
     DisableUnrollLoops := v; SLPVectorize := SLPVectorize b;
     LoopVectorize := LoopVectorize b |}.

Definition with_SLPVectorize (b : PassManagerBuilder) (v : bool) : PassManagerBuilder :=
  {| OptLevel := OptLevel b; SizeLevel := SizeLevel b; Inliner := Inliner b;
     DisableUnrollLoops := DisableUnrollLoops b; SLPVectorize := v;
     LoopVectorize := LoopVectorize b |}.

Definition with_LoopVectorize (b : PassManagerBuilder) (v : bool) : PassManagerBuilder :=
  {| OptLevel := OptLevel b; SizeLevel := SizeLevel b; Inliner := Inliner b;
     DisableUnrollLoops := DisableUnrollLoops b; SLPVectorize := SLPVectorize b;
     LoopVectorize := v |}.

(** The setters of LLVM's C API assign the field of the same name. *)
Definition LLVMPassManagerBuilderSetOptLevel (PMB : ptr) (OptLevel_ : Z) : M unit :=
  Builder ← unwrap_PassManagerBuilder PMB;
  store PMB (ObjPassManagerBuilder (with_OptLevel Builder (to_unsigned OptLevel_))).

Definition LLVMPassManagerBuilderSetSizeLevel (PMB : ptr) (SizeLevel_ : Z) : M unit :=
  Builder ← unwrap_PassManagerBuilder PMB;
  store PMB (ObjPassManagerBuilder (with_SizeLevel Builder (to_unsigned SizeLevel_))).

Definition LLVMPassManagerBuilderSetDisableUnrollLoops (PMB : ptr) (Value_ : Z) : M unit :=
  Builder ← unwrap_PassManagerBuilder PMB;
  store PMB (ObjPassManagerBuilder (with_DisableUnrollLoops Builder (bool_of_int Value_))).

Definition LLVMPY_PassManagerBuilderDispose (PMB : ptr) : M unit := delete_ PMB.

Definition LLVMPY_PassManagerBuilderGetOptLevel (PMB : ptr) : M Z :=
  pmb ← unwrap_PassManagerBuilder PMB;
  mret (OptLevel pmb).

Definition LLVMPY_PassManagerBuilderSetOptLevel (PMB : ptr) (OptLevel_ : Z) : M unit :=
  LLVMPassManagerBuilderSetOptLevel PMB OptLevel_.

Definition LLVMPY_PassManagerBuilderGetSizeLevel (PMB : ptr) : M Z :=
  pmb ← unwrap_PassManagerBuilder PMB;
  mret (SizeLevel pmb).

Definition LLVMPY_PassManagerBuilderSetSizeLevel (PMB : ptr) (SizeLevel_ : Z) : M unit :=
  LLVMPassManagerBuilderSetSizeLevel PMB SizeLevel_.

Definition LLVMPY_PassManagerBuilderGetDisableUnrollLoops (PMB : ptr) : M Z :=
  pmb ← unwrap_PassManagerBuilder PMB;
  mret (int_of_bool (DisableUnrollLoops pmb)).

Definition LLVMPY_PassManagerBuilderSetDisableUnrollLoops (PMB : ptr) (Value_ : Z) : M unit :=
  LLVMPassManagerBuilderSetDisableUnrollLoops PMB Value_.

Definition LLVMPY_PassManagerBuilderSetLoopVectorize (PMB : ptr) (Value_ : Z) : M unit :=
  pmb ← unwrap_PassManagerBuilder PMB;
  store PMB (ObjPassManagerBuilder (with_LoopVectorize pmb (bool_of_int Value_))).

Definition LLVMPY_PassManagerBuilderGetLoopVectorize (PMB : ptr) : M Z :=
  pmb ← unwrap_PassManagerBuilder PMB;
  mret (int_of_bool (LoopVectorize pmb)).

Definition LLVMPY_PassManagerBuilderSetSLPVectorize (PMB : ptr) (Value_ : Z) : M unit :=
  pmb ← unwrap_PassManagerBuilder PMB;
  store PMB (ObjPassManagerBuilder (with_SLPVectorize pmb (bool_of_int Value_))).

Definition LLVMPY_PassManagerBuilderGetSLPVectorize (PMB : ptr) : M Z :=
  pmb ← unwrap_PassManagerBuilder PMB;
  mret (int_of_bool (SLPVectorize pmb)).

Section ExtractBasicBlock.

(** [__FILE__] as the build expands it. *)
Variable FILE : string.

(** [CodeExtractor::extractCodeRegion] for the single-block region [{BB}]
    with the analysis cache of [Fn]: the outlined function, or null when
    the region is not eligible. *)
Variable extractCodeRegion : Function -> BasicBlock -> option Function.

(* Extracts a single basic block from a function using the CodeExtractor
   interface. *)
Definition LLVMPY_ExtractBasicBlock (Func BBlock : Value) : Outcome Value :=
  Fn ← match dyn_cast_Function Func with
       | None => report_fatal_error
                   (FILE +:+ ":" +:+ std_to_string 110 +:+ "Expected function")
       | Some Fn => mret Fn
       end;
  BB ← match dyn_cast_BasicBlock BBlock with
       | None => report_fatal_error
                   (FILE +:+ ":" +:+ std_to_string 117 +:+ "Expected basic block")
       | Some BB => mret BB
       end;
  let Outlined := extractCodeRegion Fn BB in
  FnName ← (o ← deref Outlined; mret (getName o));
  (* Remove '.' added by extractor in function name to avoid invalid
     function names in C. *)
  let FnName := std_replace FnName "."%char "_"%char in
  Outlined ← (o ← deref Outlined; mret (Some (setName o FnName)));
  match Outlined with
  | None => report_fatal_error "extractCodeRegion failed, not eligible"
  | Some o => mret (VFunction o)
  end.

End ExtractBasicBlock.

(** ** Callers *)

(** The cursor object over [arr] whose current position is [i] and whose end
    position is the end of [arr]. *)
Definition ListCursor (arr : AttributeList) (i : nat) : Object :=
  ObjAttributeListIterator {| list_cur := ConstIterator arr i; list_end := end_ arr |}.

Definition SetCursor (arr : AttributeSet) (i : nat) : Object :=
  ObjAttributeSetIterator {| set_cur := ConstIterator arr i; set_end := end_ arr |}.

(** A caller making the same call [n] times and keeping the results in
    order. *)
Fixpoint repeat_call {A : Type} (n : nat) (call : M A) : M (list A) :=
  match n with
  | O => mret []
  | S n' => r ← call; rs ← repeat_call n' call; mret (r :: rs)
  end.

(** A caller setting a property and reading it back. *)
Definition set_then_get {A : Type} (set : M unit) (get : M A) : M A :=
  set;; get.

(** How many of the answers are [true]. *)
Fixpoint count_true (answers : list bool) : nat :=
  match answers with
  | [] => O
  | b :: rest => ((if b then 1 else 0) + count_true rest)%nat
  end.

Definition classification (A : LLVMAttributeRef) : list bool :=
  [LLVMPY_AttributeIsType A; LLVMPY_AttributeIsInt A;
   LLVMPY_AttributeIsEnum A; LLVMPY_AttributeIsString A].

(** ** The rest of the builder bridge *)

Section PassManagerBuilderCreate.

(** The builder as the constructor of [llvm::PassManagerBuilder] leaves it;
    the initial values belong to the linked LLVM. *)
Variable initial_builder : PassManagerBuilder.

(** [LLVMPassManagerBuilderCreate]: [new PassManagerBuilder()]. *)
Definition LLVMPassManagerBuilderCreate : M ptr :=
  new (ObjPassManagerBuilder initial_builder).

Definition LLVMPY_PassManagerBuilderCreate : M ptr := LLVMPassManagerBuilderCreate.

End PassManagerBuilderCreate.

Definition with_Inliner (b : PassManagerBuilder) (v : option Z) : PassManagerBuilder :=
  {| OptLevel := OptLevel b; SizeLevel := SizeLevel b; Inliner := v;
     DisableUnrollLoops := DisableUnrollLoops b; SLPVectorize := SLPVectorize b;
     LoopVectorize := LoopVectorize b |}.

(** [LLVMPassManagerBuilderUseInlinerWithThreshold] assigns the [Inliner]
    field an inlining pass made for the threshold.  Only the builder's field
    is kept here, by the threshold of its pass; the pass objects, which LLVM
    allocates anew at every call and does not free when the field is
    assigned again, are not objects of this heap. *)
Definition LLVMPassManagerBuilderUseInlinerWithThreshold (PMB : ptr) (Threshold : Z)
  : M unit :=
  Builder ← unwrap_PassManagerBuilder PMB;
  store PMB (ObjPassManagerBuilder (with_Inliner Builder (Some (to_unsigned Threshold)))).

Definition LLVMPY_PassManagerBuilderUseInlinerWithThreshold (PMB : ptr) (Threshold : Z)
  : M unit :=
  LLVMPassManagerBuilderUseInlinerWithThreshold PMB Threshold.

(** ** More callers *)

(** A caller disposing the set-level cursors an iteration handed out, the
    last one first. *)
Fixpoint dispose_all (handles : list ptr) : M unit :=
  match handles with
  | [] => mret tt
  | GI :: rest => dispose_all rest;; LLVMPY_DisposeAttributeSetIter GI
  end.

(** A caller reading the five properties of a builder: optimisation level,
    size level, disable-unroll-loops, loop-vectorize, SLP-vectorize. *)
Definition read_properties (PMB : ptr) : M (Z * Z * Z * Z * Z) :=
  opt ← LLVMPY_PassManagerBuilderGetOptLevel PMB;
  size ← LLVMPY_PassManagerBuilderGetSizeLevel PMB;
  unroll ← LLVMPY_PassManagerBuilderGetDisableUnrollLoops PMB;
  loop ← LLVMPY_PassManagerBuilderGetLoopVectorize PMB;
  slp ← LLVMPY_PassManagerBuilderGetSLPVectorize PMB;
  mret (opt, size, unroll, loop, slp).

(** The properties as the fields of the builder give them. *)
Definition properties_of (b : PassManagerBuilder) : Z * Z * Z * Z * Z :=
  (OptLevel b, SizeLevel b, int_of_bool (DisableUnrollLoops b),
   int_of_bool (LoopVectorize b), int_of_bool (SLPVectorize b)).

(** ** Sample inputs *)

Definition sample_FILE : string := "ffi/transforms.cpp".

Definition fn_foo : Function :=
  {| fn_name := "foo"; fn_attributes := [];
     fn_symtab := {| vmap := []; LastUnique := 0 |} |}.

(** The same function once its module holds the function an earlier
    extraction returned. *)
Definition fn_foo_again : Function :=
  {| fn_name := "foo"; fn_attributes := [];
     fn_symtab := {| vmap := ["foo_bblock_extract"]; LastUnique := 0 |} |}.

Definition bb_of_foo : BasicBlock :=
  {| bb_name := "entry"; bb_parent := Some "foo" |}.


(** An extractor that finds no region eligible. *)
Definition extract_ineligible (Fn : Function) (BB : BasicBlock) : option Function :=
  None.

(** An extractor that outlines every parented block, naming the new function
    after the block's parent and the suffix the bridge passes, and adding it
    to the module of [Fn]. *)
Definition extract_from_parent (Fn : Function) (BB : BasicBlock) : option Function :=
  match bb_parent BB with
  | Some oldFunction =>
      Some {| fn_name := oldFunction +:+ "." +:+ "bblock_extract"; fn_attributes := [];
              fn_symtab := {| vmap := fn_name Fn :: vmap (fn_symtab Fn);
                              LastUnique := LastUnique (fn_symtab Fn) |} |}
  | None => None
  end.

Definition attr_noinline : AttributeImpl :=
  {| KindID := EnumAttrEntry; KindAsEnum := 26; AsString := "noinline" |}.

Definition attr_nonnull : AttributeImpl :=
  {| KindID := EnumAttrEntry; KindAsEnum := 40; AsString := "nonnull" |}.

Definition attr_align_8 : AttributeImpl :=
  {| KindID := IntAttrEntry; KindAsEnum := 1; AsString := "align 8" |}.

Definition attr_frame_pointer : AttributeImpl :=
  {| KindID := StringAttrEntry; KindAsEnum := 0; AsString := "frame-pointer=all" |}.

(** A function with three attribute groups: its own, an empty one for the
    return value, and one for its first argument. *)
Definition fn_baz : Function :=
  {| fn_name := "baz";
     fn_attributes := [[attr_noinline; attr_frame_pointer]; [];
                       [attr_nonnull; attr_align_8]];
     fn_symtab := {| vmap := []; LastUnique := 0 |} |}.

(** A few rows of an attribute-name table. *)
Definition sample_AttrKindNames : gmap string positive :=
  list_to_map [("align", 1%positive); ("noinline", 26%positive);
               ("nonnull", 40%positive)].

Definition sample_builder : PassManagerBuilder :=
  {| OptLevel := 2; SizeLevel := 0; Inliner := None;
     DisableUnrollLoops := false; SLPVectorize := false; LoopVectorize := false |}.

(** A heap with a list-level cursor at the end of the groups of [fn_baz], a
    set-level cursor at the end of a one-attribute set, and a builder. *)
Definition sample_heap : gmap positive Object :=
  <[1%positive := ListCursor (fn_attributes fn_baz) 3]>
    (<[2%positive := SetCursor [attr_nonnull] 1]>
       (<[3%positive := ObjPassManagerBuilder sample_builder]> ∅)).

Definition gv_counter : GlobalVariable :=
  {| gv_name := "counter"; gv_attributes := [attr_frame_pointer; attr_align_8] |}.

(** A heap with a list-level cursor at the start of the groups of [fn_baz],
    a set-level cursor at the start of a one-attribute set, and a builder. *)
Definition sample_heap_start : gmap positive Object :=
  <[1%positive := ListCursor (fn_attributes fn_baz) 0]>
    (<[2%positive := SetCursor [attr_nonnull] 0]>
       (<[3%positive := ObjPassManagerBuilder sample_builder]> ∅)).

(** * Properties *)

(** ** Basic-block extraction *)

Lemma std_replace_occurs (s : string) (old_value new_value : Ascii.ascii) :
  old_value <> new_value ->
  occurs old_value (std_replace s old_value new_value) = false.
Proof.
  intros Hne. induction s as [|c rest IH]; simpl; [reflexivity|].
  rewrite IH, orb_false_r.
  destruct (Ascii.eqb c old_value) eqn:Hc.
  - apply Ascii.eqb_neq. congruence.
  - exact Hc.
Qed.

Lemma std_replace_length (s : string) (old_value new_value : Ascii.ascii) :
  String.length (std_replace s old_value new_value) = String.length s.
Proof. induction s; simpl; congruence. Qed.

Lemma std_replace_get (s : string) (old_value new_value : Ascii.ascii) (i : nat) :
  String.get i (std_replace s old_value new_value)
  = (fun c => if Ascii.eqb c old_value then new_value else c) <$> String.get i s.
Proof.
  revert i. induction s as [|c rest IH]; intros [|i]; simpl; auto.
Qed.

Section ExtractBasicBlockFacts.

Variable FILE : string.
Variable extractCodeRegion : Function -> BasicBlock -> option Function.

Abbreviation ExtractBB := (LLVMPY_ExtractBasicBlock FILE extractCodeRegion).

Lemma Extract_not_function (Func BBlock : Value) :
  dyn_cast_Function Func = None ->
  ExtractBB Func BBlock = Fatal (FILE +:+ ":" +:+ "110" +:+ "Expected function").
Proof. intros H. unfold LLVMPY_ExtractBasicBlock. rewrite H. reflexivity. Qed.

Lemma Extract_not_block (Func BBlock : Value) (Fn : Function) :
  dyn_cast_Function Func = Some Fn ->
  dyn_cast_BasicBlock BBlock = None ->
  ExtractBB Func BBlock = Fatal (FILE +:+ ":" +:+ "117" +:+ "Expected basic block").
Proof. intros H1 H2. unfold LLVMPY_ExtractBasicBlock. rewrite H1, H2. reflexivity. Qed.

Lemma Extract_outlined (Fn : Function) (BB : BasicBlock) (o : Function) :
  extractCodeRegion Fn BB = Some o ->
  ExtractBB (VFunction Fn) (VBasicBlock BB)
  = Ret (VFunction (setName o (std_replace (getName o) "."%char "_"%char))).
Proof. intros H. unfold LLVMPY_ExtractBasicBlock. simpl. rewrite H. reflexivity. Qed.

Lemma Extract_null (Fn : Function) (BB : BasicBlock) :
  extractCodeRegion Fn BB = None ->
  ExtractBB (VFunction Fn) (VBasicBlock BB) = Undefined.
Proof. intros H. unfold LLVMPY_ExtractBasicBlock. simpl. rewrite H. reflexivity. Qed.

(** Any returned handle is the extractor's function under its sanitised
    name. *)
Lemma Extract_Ret_inv (Func BBlock V : Value) :
  ExtractBB Func BBlock = Ret V ->
  exists Fn BB o,
    Func = VFunction Fn /\ BBlock = VBasicBlock BB /\
    extractCodeRegion Fn BB = Some o /\
    V = VFunction (setName o (std_replace (getName o) "."%char "_"%char)).
Proof.
  intros H.
  destruct (dyn_cast_Function Func) as [Fn|] eqn:HF;
    [|rewrite Extract_not_function in H by assumption; discriminate].
  destruct (dyn_cast_BasicBlock BBlock) as [BB|] eqn:HB;
    [|rewrite (Extract_not_block _ _ Fn) in H by assumption; discriminate].
  destruct Func; try discriminate. destruct BBlock; try discriminate.
  simpl in HF, HB. simplify_eq.
  destruct (extractCodeRegion Fn BB) as [o|] eqn:HE.
  - rewrite (Extract_outlined _ _ o) in H by assumption. simplify_eq. eauto 8.
  - rewrite Extract_null in H by assumption. discriminate.
Qed.

End ExtractBasicBlockFacts.

(** C1 (as the code behaves): when [extractCodeRegion] yields a null
    function for a function handle and a basic-block handle, the call reads
    the name through the null pointer before the null test at the end is
    reached: its outcome is undefined behaviour, not the fatal error with
    the diagnostic, and the test that would report it is never reached. *)
Theorem C1_null_extraction_precedes_check
    (FILE : string) (extractCodeRegion : Function -> BasicBlock -> option Function)
    (Fn : Function) (BB : BasicBlock) :
  extractCodeRegion Fn BB = None ->
  LLVMPY_ExtractBasicBlock FILE extractCodeRegion (VFunction Fn) (VBasicBlock BB)
    = Undefined
  /\ forall msg,
       LLVMPY_ExtractBasicBlock FILE extractCodeRegion (VFunction Fn) (VBasicBlock BB)
         <> Fatal msg.
Proof.
  intros H. rewrite Extract_null by assumption. split; [reflexivity|discriminate].
Qed.

Lemma C1_null_extraction_witness :
  extract_ineligible fn_foo bb_of_foo = None
  /\ LLVMPY_ExtractBasicBlock sample_FILE extract_ineligible
       (VFunction fn_foo) (VBasicBlock bb_of_foo) = Undefined.
Proof.
  split; [reflexivity|].
  apply (C1_null_extraction_precedes_check sample_FILE extract_ineligible fn_foo bb_of_foo).
  reflexivity.
Defined.




(** C3: when the first handle is not a function, or the second is not a
    basic block, the call ends in [report_fatal_error] and does not return;
    the message is the source file, a colon, the line of the failed test and
    the kind that was expected ("Expected function" for the first handle,
    checked first; "Expected basic block" for the second). *)
Theorem C3_kind_mismatch_is_fatal
    (FILE : string) (extractCodeRegion : Function -> BasicBlock -> option Function)
    (Func BBlock : Value) :
  dyn_cast_Function Func = None \/ dyn_cast_BasicBlock BBlock = None ->
  exists line what,
    LLVMPY_ExtractBasicBlock FILE extractCodeRegion Func BBlock
      = Fatal (FILE +:+ ":" +:+ line +:+ what)
    /\ ((dyn_cast_Function Func = None
         /\ line = "110" /\ what = "Expected function")
        \/ (dyn_cast_Function Func <> None /\ dyn_cast_BasicBlock BBlock = None
            /\ line = "117" /\ what = "Expected basic block")).
Proof.
  intros H.
  destruct (dyn_cast_Function Func) as [Fn|] eqn:HF.
  - destruct H as [H|H]; [discriminate|].
    exists "117", "Expected basic block". split.
    + apply (Extract_not_block _ _ _ _ Fn); assumption.
    + right. repeat split; [discriminate|assumption].
  - exists "110", "Expected function". split.
    + apply Extract_not_function; assumption.
    + left. repeat split.
Qed.

Lemma C3_kind_mismatch_witness :
  exists line what,
    LLVMPY_ExtractBasicBlock sample_FILE extract_from_parent
      (VFunction fn_foo) (VConstantInt 7)
      = Fatal (sample_FILE +:+ ":" +:+ line +:+ what)
    /\ ((dyn_cast_Function (VFunction fn_foo) = None
         /\ line = "110" /\ what = "Expected function")
        \/ (dyn_cast_Function (VFunction fn_foo) <> None
            /\ dyn_cast_BasicBlock (VConstantInt 7) = None
            /\ line = "117" /\ what = "Expected basic block")).
Proof.
  apply (C3_kind_mismatch_is_fatal sample_FILE extract_from_parent
           (VFunction fn_foo) (VConstantInt 7)).
  right. reflexivity.
Defined.

(** *** Names in the module's symbol table *)

Lemma occurs_app (c : Ascii.ascii) (s t : string) :
  occurs c (s +:+ t) = occurs c s || occurs c t.
Proof.
  induction s as [|d s IH]; simpl; [reflexivity|].
  rewrite IH, orb_assoc. reflexivity.
Qed.

Lemma String_length_app (s t : string) :
  String.length (s +:+ t) = (String.length s + String.length t)%nat.
Proof. induction s as [|d s IH]; simpl; [reflexivity|]. rewrite IH. reflexivity. Qed.

(** A name made unique is the name, a '.', and a number. *)
Lemma makeUniqueName_shape (fuel : nat) (taken : list string) (UniqueName : string) :
  forall Last : N,
    exists n : N,
      (makeUniqueName fuel taken Last UniqueName).1
      = UniqueName +:+ "." +:+ pretty n.
Proof.
  induction fuel as [|fuel IH]; intros Last; simpl.
  - eauto.
  - destruct (decide (_ ∈ taken)); [apply IH|simpl; eauto].
Qed.

(** If the loop ends on a name of the table, every candidate it tried is in
    the table. *)
Lemma makeUniqueName_all_taken (fuel : nat) (taken : list string) (UniqueName : string) :
  forall Last : N,
    (makeUniqueName fuel taken Last UniqueName).1 ∈ taken ->
    forall k : nat, (k <= fuel)%nat ->
      UniqueName +:+ "." +:+ pretty (N.succ Last + N.of_nat k)%N ∈ taken.
Proof.
  induction fuel as [|fuel IH]; intros Last Hin k Hk; simpl in Hin.
  - replace k with 0%nat by lia. rewrite N.add_0_r. exact Hin.
  - destruct (decide (_ ∈ taken)) as [Hc|Hc].
    + destruct k as [|k]; [rewrite N.add_0_r; exact Hc|].
      replace (N.succ Last + N.of_nat (S k))%N with (N.succ (N.succ Last) + N.of_nat k)%N
        by lia.
      apply IH; [exact Hin|lia].
    + simpl in Hin. contradiction.
Qed.

(** As many rounds as the table has names are enough: the name that comes out
    is not in the table. *)
Lemma makeUniqueName_free (fuel : nat) (taken : list string) (Last : N)
    (UniqueName : string) :
  (length taken <= fuel)%nat ->
  (makeUniqueName fuel taken Last UniqueName).1 ∉ taken.
Proof.
  intros Hfuel Hin.
  pose proof (makeUniqueName_all_taken fuel taken UniqueName Last Hin) as Hall.
  set (candidate := fun k : nat =>
         UniqueName +:+ "." +:+ pretty (N.succ Last + N.of_nat k)%N) in *.
  assert (Inj (=) (=) candidate) as Hinj.
  { intros j k Hjk. unfold candidate in Hjk.
    apply (inj (String.app UniqueName)) in Hjk.
    apply (inj (String.app ".")) in Hjk.
    apply (inj pretty) in Hjk. lia. }
  assert (candidate <$> seq 0 (S fuel) ⊆+ taken) as Hsub.
  { apply NoDup_submseteq.
    - apply NoDup_fmap_2; [exact Hinj|apply NoDup_seq].
    - intros x Hx. apply list_elem_of_fmap in Hx as (k & -> & Hk).
      apply elem_of_seq in Hk. apply Hall. lia. }
  apply submseteq_length in Hsub. rewrite length_fmap, length_seq in Hsub. lia.
Qed.

Lemma setName_unchanged (f : Function) : setName f (getName f) = f.
Proof. unfold setName. rewrite decide_True by reflexivity. reflexivity. Qed.

(** A name no other value of the module has is taken as it is. *)
Lemma setName_free (f : Function) (Name : string) :
  Name ∉ vmap (fn_symtab f) -> getName (setName f Name) = Name.
Proof.
  intros Hfree. unfold setName.
  destruct (decide (getName f = Name)) as [Heq|Hne]; [exact Heq|].
  destruct Name as [|c Name]; [reflexivity|].
  unfold createValueName. rewrite decide_False by exact Hfree. reflexivity.
Qed.

(** A new name another value of the module has comes back with a '.' and a
    number after it. *)
Lemma setName_clash (f : Function) (Name : string) :
  getName f <> Name ->
  Name ∈ vmap (fn_symtab f) ->
  Name <> EmptyString ->
  exists n : N,
    getName (setName f Name) = Name +:+ "." +:+ pretty n
    /\ getName (setName f Name) ∉ vmap (fn_symtab f).
Proof.
  intros Hne Hin Hnonempty. unfold setName.
  rewrite decide_False by exact Hne.
  destruct Name as [|c Name]; [contradiction|].
  unfold createValueName. rewrite decide_True by exact Hin.
  cbn [getName fn_name fst].
  destruct (makeUniqueName_shape (length (vmap (fn_symtab f))) (vmap (fn_symtab f))
              (String c Name) (LastUnique (fn_symtab f))) as [n Hn].
  exists n. split; [exact Hn|].
  apply makeUniqueName_free. reflexivity.
Qed.

Lemma std_replace_nonempty (s : string) (old_value new_value : Ascii.ascii) :
  occurs old_value s = true -> std_replace s old_value new_value <> EmptyString.
Proof. destruct s; simpl; [discriminate|discriminate]. Qed.

(** C4 (as the code behaves): the name the bridge asks for is the
    extractor's name with every '.' replaced by '_', but it asks
    [Value::setName] for it, and when another value of the module already has
    that name (the function an earlier extraction from the same function
    returned, say) the name is made unique by appending '.' and a number: the
    call returns a function whose name contains a '.'. *)
Theorem C4_name_clash_returns_dotted_name
    (FILE : string) (extractCodeRegion : Function -> BasicBlock -> option Function)
    (Fn : Function) (BB : BasicBlock) (o : Function) :
  extractCodeRegion Fn BB = Some o ->
  occurs "."%char (getName o) = true ->
  std_replace (getName o) "."%char "_"%char ∈ vmap (fn_symtab o) ->
  exists (Outlined : Function) (n : N),
    LLVMPY_ExtractBasicBlock FILE extractCodeRegion (VFunction Fn) (VBasicBlock BB)
      = Ret (VFunction Outlined)
    /\ getName Outlined
       = std_replace (getName o) "."%char "_"%char +:+ "." +:+ pretty n
    /\ occurs "."%char (getName Outlined) = true.
Proof.
  intros HE Hdot Hin.
  assert (getName o <> std_replace (getName o) "."%char "_"%char) as Hne.
  { intros Heq. rewrite Heq, std_replace_occurs in Hdot by discriminate.
    discriminate. }
  destruct (setName_clash o _ Hne Hin (std_replace_nonempty _ _ _ Hdot))
    as (n & Hn & _).
  exists (setName o (std_replace (getName o) "."%char "_"%char)), n.
  split; [apply Extract_outlined; exact HE|]. split; [exact Hn|].
  rewrite Hn, !occurs_app. simpl. apply orb_true_r.
Qed.

Lemma C4_name_clash_witness :
  exists (Outlined : Function) (n : N),
    LLVMPY_ExtractBasicBlock sample_FILE extract_from_parent
      (VFunction fn_foo_again) (VBasicBlock bb_of_foo) = Ret (VFunction Outlined)
    /\ getName Outlined
       = std_replace "foo.bblock_extract" "."%char "_"%char +:+ "." +:+ pretty n
    /\ occurs "."%char (getName Outlined) = true.
Proof.
  apply (C4_name_clash_returns_dotted_name sample_FILE extract_from_parent
           fn_foo_again bb_of_foo
           {| fn_name := "foo.bblock_extract"; fn_attributes := [];
              fn_symtab := {| vmap := ["foo"; "foo_bblock_extract"];
                              LastUnique := 0 |} |}).
  - reflexivity.
  - reflexivity.
  - vm_compute. apply list_elem_of_In. simpl. auto.
Defined.

(** The second extraction from [foo]: the function comes back as
    [foo_bblock_extract.1]. *)
Lemma Extract_second_from_foo :
  LLVMPY_ExtractBasicBlock sample_FILE extract_from_parent
    (VFunction fn_foo_again) (VBasicBlock bb_of_foo)
  = Ret (VFunction {| fn_name := "foo_bblock_extract.1"; fn_attributes := [];
                      fn_symtab := {| vmap := ["foo"; "foo_bblock_extract"];
                                      LastUnique := 1 |} |}).
Proof. reflexivity. Qed.

(** ** Running calls in the heap *)

Ltac run_M :=
  cbv beta iota delta
    [mbind M_bind mret M_ret lift load store new
     unwrap_AttributeListIterator unwrap_AttributeSetIterator
     unwrap_PassManagerBuilder iter_deref deref].

Lemma repeat_call_S {A : Type} (call : M A) (n : nat) (h h1 h2 : gmap positive Object)
    (r : A) (rs : list A) :
  call h = Ret (r, h1) ->
  repeat_call n call h1 = Ret (rs, h2) ->
  repeat_call (S n) call h = Ret (r :: rs, h2).
Proof.
  intros H1 H2. cbn [repeat_call]. run_M. rewrite H1, H2. reflexivity.
Qed.

(** A call that returns [r] and leaves the heap as it is does so however
    often it is made. *)
Lemma repeat_call_fixed {A : Type} (call : M A) (h : gmap positive Object) (r : A) :
  call h = Ret (r, h) ->
  forall n, repeat_call n call h = Ret (replicate n r, h).
Proof.
  intros H n. induction n as [|n IH]; [reflexivity|].
  exact (repeat_call_S call n h h h r (replicate n r) H IH).
Qed.

Lemma new_fresh (h : gmap positive Object) :
  h !! fresh (dom h) = None.
Proof. apply not_elem_of_dom, is_fresh. Qed.

(** *** The list-level cursor *)

Lemma ListIterNext_step (h : gmap positive Object) (a : positive)
    (arr : AttributeList) (i : nat) (set : AttributeSet) :
  h !! a = Some (ListCursor arr i) ->
  arr !! i = Some set ->
  LLVMPY_AttributeListIterNext (Some a) h
  = Ret (Some (fresh (dom (<[a := ListCursor arr (S i)]> h))),
         <[fresh (dom (<[a := ListCursor arr (S i)]> h)) := SetCursor set 0]>
           (<[a := ListCursor arr (S i)]> h)).
Proof.
  intros Ha Hi.
  assert (i <> length arr) as Hne by (apply lookup_lt_Some in Hi; lia).
  unfold LLVMPY_AttributeListIterNext, new_AttributeSetIterator. run_M.
  rewrite Ha. unfold ListCursor, iter_neq, iter_incr, end_.
  cbn [list_cur list_end off base].
  apply Nat.eqb_neq in Hne. rewrite Hne. cbn [negb].
  rewrite Ha, Hi. reflexivity.
Qed.

Lemma ListIterNext_at_end (h : gmap positive Object) (a : positive)
    (it : AttributeListIterator) :
  h !! a = Some (ObjAttributeListIterator it) ->
  iter_neq (list_cur it) (list_end it) = false ->
  LLVMPY_AttributeListIterNext (Some a) h = Ret (NULL, h).
Proof.
  intros Ha He. unfold LLVMPY_AttributeListIterNext. run_M.
  rewrite Ha, He. reflexivity.
Qed.

Lemma ListCursor_at_end (arr : AttributeList) :
  iter_neq (ConstIterator arr (length arr)) (end_ arr) = false.
Proof. unfold iter_neq, end_. cbn [off]. rewrite Nat.eqb_refl. reflexivity. Qed.

(** [n] advances of a list-level cursor at position [i]: the cursor moves to
    [min (i + n) (length arr)], the other objects stay, the advance number
    [k] yields a new set-level cursor at the start of group [i + k] while
    there is one, and null after that. *)
Lemma advance_list_spec (n : nat) :
  forall (h : gmap positive Object) (a : positive) (arr : AttributeList) (i : nat),
    (i <= length arr)%nat ->
    h !! a = Some (ListCursor arr i) ->
    exists (rs : list (option positive)) (h' : gmap positive Object),
      repeat_call n (LLVMPY_AttributeListIterNext (Some a)) h = Ret (rs, h')
      /\ length rs = n
      /\ h' !! a = Some (ListCursor arr (Nat.min (i + n) (length arr)))
      /\ (forall x o, x <> a -> h !! x = Some o -> h' !! x = Some o)
      /\ (forall k, (k < n)%nat -> (i + k < length arr)%nat ->
            exists b set,
              rs !! k = Some (Some b) /\ arr !! (i + k)%nat = Some set
              /\ h' !! b = Some (SetCursor set 0) /\ h !! b = None)
      /\ (forall k, (k < n)%nat -> (length arr <= i + k)%nat -> rs !! k = Some NULL).
Proof.
  induction n as [|n IH]; intros h a arr i Hi Ha.
  - exists [], h. repeat split; try (intros; lia); auto.
    replace (Nat.min (i + 0) (length arr)) with i by lia. exact Ha.
  - destruct (decide (i < length arr)%nat) as [Hlt|Hge].
    + destruct (lookup_lt_is_Some_2 arr i Hlt) as [set Hset].
      pose proof (ListIterNext_step h a arr i set Ha Hset) as Hstep.
      set (h0 := <[a := ListCursor arr (S i)]> h) in *.
      set (b := fresh (dom h0)) in *.
      set (h1 := <[b := SetCursor set 0]> h0) in *.
      assert (h0 !! b = None) as Hb0 by (apply (new_fresh h0)).
      assert (b <> a) as Hba.
      { intros ->. subst h0. rewrite lookup_insert_eq in Hb0. discriminate. }
      assert (h !! b = None) as Hb.
      { subst h0. rewrite lookup_insert_ne in Hb0 by congruence. exact Hb0. }
      assert (h1 !! a = Some (ListCursor arr (S i))) as Ha1.
      { subst h1 h0. rewrite lookup_insert_ne by congruence. apply lookup_insert_eq. }
      destruct (IH h1 a arr (S i) ltac:(lia) Ha1)
        as (rs & h' & Hrun & Hlen & Ha' & Hframe & Hsome & Hnull).
      exists (Some b :: rs), h'. split; [|split; [|split; [|split; [|split]]]].
      * exact (repeat_call_S _ n h h1 h' (Some b) rs Hstep Hrun).
      * simpl. congruence.
      * replace (i + S n)%nat with (S i + n)%nat by lia. exact Ha'.
      * intros x o Hx Hxo. apply Hframe; [exact Hx|].
        subst h1 h0. rewrite lookup_insert_ne by congruence.
        rewrite lookup_insert_ne by congruence. exact Hxo.
      * intros [|k] Hk Hik.
        -- exists b, set. rewrite Nat.add_0_r. repeat split; auto.
           apply Hframe; [exact Hba|]. subst h1. apply lookup_insert_eq.
        -- destruct (Hsome k ltac:(lia) ltac:(lia)) as (b' & set' & Hr & Hs & Hh' & Hh1).
           exists b', set'. replace (i + S k)%nat with (S i + k)%nat by lia.
           repeat split; auto.
           subst h1 h0.
           destruct (decide (b' = b)) as [->|Hne1];
             [rewrite lookup_insert_eq in Hh1; discriminate|].
           rewrite lookup_insert_ne in Hh1 by congruence.
           destruct (decide (b' = a)) as [->|Hne2];
             [rewrite lookup_insert_eq in Hh1; discriminate|].
           rewrite lookup_insert_ne in Hh1 by congruence. exact Hh1.
      * intros [|k] Hk Hik; [lia|]. simpl. apply Hnull; lia.
    + assert (i = length arr) as -> by lia.
      pose proof (ListIterNext_at_end h a _ Ha (ListCursor_at_end arr)) as Hstep.
      destruct (IH h a arr (length arr) ltac:(lia) Ha)
        as (rs & h' & Hrun & Hlen & Ha' & Hframe & Hsome & Hnull).
      exists (NULL :: rs), h'. split; [|split; [|split; [|split; [|split]]]].
      * exact (repeat_call_S _ n h h h' NULL rs Hstep Hrun).
      * simpl. congruence.
      * replace (Nat.min (length arr + S n) (length arr)) with
          (Nat.min (length arr + n) (length arr)) by lia. exact Ha'.
      * exact Hframe.
      * intros k Hk Hik. lia.
      * intros [|k] Hk Hik; [reflexivity|]. simpl. apply Hnull; lia.
Qed.

(** *** The set-level cursor *)

Lemma SetIterNext_step (h : gmap positive Object) (a : positive)
    (arr : AttributeSet) (i : nat) (attr : AttributeImpl) :
  h !! a = Some (SetCursor arr i) ->
  arr !! i = Some attr ->
  LLVMPY_AttributeSetIterNext (Some a) h
  = Ret (Some attr, <[a := SetCursor arr (S i)]> h).
Proof.
  intros Ha Hi.
  assert (i <> length arr) as Hne by (apply lookup_lt_Some in Hi; lia).
  unfold LLVMPY_AttributeSetIterNext. run_M.
  rewrite Ha. unfold SetCursor, iter_neq, iter_incr, end_.
  cbn [set_cur set_end off base].
  apply Nat.eqb_neq in Hne. rewrite Hne. cbn [negb].
  rewrite Ha, Hi. reflexivity.
Qed.

Lemma SetIterNext_at_end (h : gmap positive Object) (a : positive)
    (it : AttributeSetIterator) :
  h !! a = Some (ObjAttributeSetIterator it) ->
  iter_neq (set_cur it) (set_end it) = false ->
  LLVMPY_AttributeSetIterNext (Some a) h = Ret (None, h).
Proof.
  intros Ha He. unfold LLVMPY_AttributeSetIterNext. run_M.
  rewrite Ha, He. reflexivity.
Qed.

Lemma SetCursor_at_end (arr : AttributeSet) :
  iter_neq (ConstIterator arr (length arr)) (end_ arr) = false.
Proof. unfold iter_neq, end_. cbn [off]. rewrite Nat.eqb_refl. reflexivity. Qed.

(** [n] advances of a set-level cursor at position [i]: only the cursor
    changes, moving to [min (i + n) (length arr)]; the advance number [k]
    yields attribute [i + k] while there is one, and null after that. *)
Lemma advance_set_spec (n : nat) :
  forall (h : gmap positive Object) (a : positive) (arr : AttributeSet) (i : nat),
    (i <= length arr)%nat ->
    h !! a = Some (SetCursor arr i) ->
    exists (rs : list (option AttributeImpl)),
      repeat_call n (LLVMPY_AttributeSetIterNext (Some a)) h
      = Ret (rs, <[a := SetCursor arr (Nat.min (i + n) (length arr))]> h)
      /\ length rs = n
      /\ (forall k, (k < n)%nat -> (i + k < length arr)%nat ->
            exists attr, arr !! (i + k)%nat = Some attr /\ rs !! k = Some (Some attr))
      /\ (forall k, (k < n)%nat -> (length arr <= i + k)%nat -> rs !! k = Some None).
Proof.
  induction n as [|n IH]; intros h a arr i Hi Ha.
  - exists []. repeat split; try (intros; lia).
    replace (Nat.min (i + 0) (length arr)) with i by lia.
    rewrite insert_id by exact Ha. reflexivity.
  - destruct (decide (i < length arr)%nat) as [Hlt|Hge].
    + destruct (lookup_lt_is_Some_2 arr i Hlt) as [attr Hattr].
      pose proof (SetIterNext_step h a arr i attr Ha Hattr) as Hstep.
      destruct (IH (<[a := SetCursor arr (S i)]> h) a arr (S i) ltac:(lia)
                  (lookup_insert_eq _ _ _))
        as (rs & Hrun & Hlen & Hsome & Hnull).
      rewrite insert_insert_eq in Hrun.
      exists (Some attr :: rs). split; [|split; [|split]].
      * replace (i + S n)%nat with (S i + n)%nat by lia.
        exact (repeat_call_S _ n _ _ _ (Some attr) rs Hstep Hrun).
      * simpl. congruence.
      * intros [|k] Hk Hik.
        -- exists attr. rewrite Nat.add_0_r. split; [assumption|reflexivity].
        -- destruct (Hsome k ltac:(lia) ltac:(lia)) as (attr' & Hs & Hr).
           exists attr'. replace (i + S k)%nat with (S i + k)%nat by lia.
           split; assumption.
      * intros [|k] Hk Hik; [lia|]. simpl. apply Hnull; lia.
    + assert (i = length arr) as -> by lia.
      pose proof (SetIterNext_at_end h a _ Ha (SetCursor_at_end arr)) as Hstep.
      destruct (IH h a arr (length arr) ltac:(lia) Ha)
        as (rs & Hrun & Hlen & Hsome & Hnull).
      exists (None :: rs). split; [|split; [|split]].
      * replace (Nat.min (length arr + S n) (length arr)) with
          (Nat.min (length arr + n) (length arr)) by lia.
        exact (repeat_call_S _ n _ _ _ None rs Hstep Hrun).
      * simpl. congruence.
      * intros k Hk Hik. lia.
      * intros [|k] Hk Hik; [reflexivity|]. simpl. apply Hnull; lia.
Qed.

(** C5: for a function with [N] attribute groups, the list-level cursor
    that [LLVMPY_FunctionAttributesIter] creates answers the first [N]
    calls of [LLVMPY_AttributeListIterNext] with a non-null set-level cursor
    (a new cursor at the start of the group of that position) and call
    number [N + 1] with null. *)
Theorem C5_list_cursor_yields_N_then_null
    (h : gmap positive Object) (Fn : Function) (N : nat) :
  length (fn_attributes Fn) = N ->
  exists (a : positive) (h1 : gmap positive Object)
         (rs : list (option positive)) (h2 : gmap positive Object),
    LLVMPY_FunctionAttributesIter (VFunction Fn) h = Ret (Some a, h1)
    /\ repeat_call (S N) (LLVMPY_AttributeListIterNext (Some a)) h1 = Ret (rs, h2)
    /\ (forall k, (k < N)%nat ->
          exists b set,
            rs !! k = Some (Some b) /\ fn_attributes Fn !! k = Some set
            /\ h2 !! b = Some (SetCursor set 0))
    /\ rs !! N = Some NULL.
Proof.
  intros HN.
  set (a := fresh (dom h)).
  set (h1 := <[a := ListCursor (fn_attributes Fn) 0]> h).
  destruct (advance_list_spec (S N) h1 a (fn_attributes Fn) 0 ltac:(lia)
              (lookup_insert_eq _ _ _))
    as (rs & h2 & Hrun & Hlen & _ & _ & Hsome & Hnull).
  exists a, h1, rs, h2. split; [reflexivity|]. split; [exact Hrun|]. split.
  - intros k Hk. destruct (Hsome k ltac:(lia) ltac:(simpl; lia))
      as (b & set & Hr & Hs & Hb & _).
    exists b, set. simpl in Hs. auto.
  - apply Hnull; simpl; lia.
Qed.

Lemma C5_list_cursor_witness :
  exists (a : positive) (h1 : gmap positive Object)
         (rs : list (option positive)) (h2 : gmap positive Object),
    LLVMPY_FunctionAttributesIter (VFunction fn_baz) ∅ = Ret (Some a, h1)
    /\ repeat_call 4 (LLVMPY_AttributeListIterNext (Some a)) h1 = Ret (rs, h2)
    /\ (forall k, (k < 3)%nat ->
          exists b set,
            rs !! k = Some (Some b) /\ fn_attributes fn_baz !! k = Some set
            /\ h2 !! b = Some (SetCursor set 0))
    /\ rs !! 3%nat = Some NULL.
Proof.
  apply (C5_list_cursor_yields_N_then_null ∅ fn_baz 3). reflexivity.
Defined.

(** C6: for an attribute set with [m] attributes, a newly created set-level
    cursor answers the first [m] calls of [LLVMPY_AttributeSetIterNext] with
    a non-null attribute handle (the attribute of that position) and call
    number [m + 1] with null. *)
Theorem C6_set_cursor_yields_M_then_null
    (h : gmap positive Object) (attrs : AttributeSet) (m : nat) :
  length attrs = m ->
  exists (a : positive) (h1 : gmap positive Object)
         (rs : list (option AttributeImpl)) (h2 : gmap positive Object),
    new_AttributeSetIterator attrs h = Ret (Some a, h1)
    /\ repeat_call (S m) (LLVMPY_AttributeSetIterNext (Some a)) h1 = Ret (rs, h2)
    /\ (forall k, (k < m)%nat ->
          exists attr, attrs !! k = Some attr /\ rs !! k = Some (Some attr))
    /\ rs !! m = Some None.
Proof.
  intros Hm.
  set (a := fresh (dom h)).
  set (h1 := <[a := SetCursor attrs 0]> h).
  destruct (advance_set_spec (S m) h1 a attrs 0 ltac:(lia) (lookup_insert_eq _ _ _))
    as (rs & Hrun & Hlen & Hsome & Hnull).
  exists a, h1, rs. eexists. split; [reflexivity|]. split; [exact Hrun|]. split.
  - intros k Hk. destruct (Hsome k ltac:(lia) ltac:(simpl; lia)) as (attr & Hs & Hr).
    exists attr. simpl in Hs. auto.
  - apply Hnull; simpl; lia.
Qed.

Lemma C6_set_cursor_witness :
  exists (a : positive) (h1 : gmap positive Object)
         (rs : list (option AttributeImpl)) (h2 : gmap positive Object),
    new_AttributeSetIterator [attr_nonnull; attr_align_8] ∅ = Ret (Some a, h1)
    /\ repeat_call 3 (LLVMPY_AttributeSetIterNext (Some a)) h1 = Ret (rs, h2)
    /\ (forall k, (k < 2)%nat ->
          exists attr,
            [attr_nonnull; attr_align_8] !! k = Some attr /\ rs !! k = Some (Some attr))
    /\ rs !! 2%nat = Some None.
Proof.
  apply (C6_set_cursor_yields_M_then_null ∅ [attr_nonnull; attr_align_8] 2).
  reflexivity.
Defined.

(** C10: once a list-level or set-level cursor's current position equals its
    end position, any number of further advances all return null and leave
    the heap, and with it the cursor, exactly as it was. *)
Theorem C10_advance_past_end_is_idempotent
    (h : gmap positive Object) (a : positive) (n : nat) :
  (forall it : AttributeListIterator,
      h !! a = Some (ObjAttributeListIterator it) ->
      iter_neq (list_cur it) (list_end it) = false ->
      LLVMPY_AttributeListIterNext (Some a) h = Ret (NULL, h)
      /\ repeat_call n (LLVMPY_AttributeListIterNext (Some a)) h
         = Ret (replicate n NULL, h))
  /\ (forall it : AttributeSetIterator,
        h !! a = Some (ObjAttributeSetIterator it) ->
        iter_neq (set_cur it) (set_end it) = false ->
        LLVMPY_AttributeSetIterNext (Some a) h = Ret (None, h)
        /\ repeat_call n (LLVMPY_AttributeSetIterNext (Some a)) h
           = Ret (replicate n None, h)).
Proof.
  split; intros it Ha He.
  - pose proof (ListIterNext_at_end h a it Ha He) as Hstep.
    split; [exact Hstep|]. apply repeat_call_fixed. exact Hstep.
  - pose proof (SetIterNext_at_end h a it Ha He) as Hstep.
    split; [exact Hstep|]. apply repeat_call_fixed. exact Hstep.
Qed.

Lemma C10_advance_past_end_witness :
  (LLVMPY_AttributeListIterNext (Some 1%positive) sample_heap = Ret (NULL, sample_heap)
   /\ repeat_call 3 (LLVMPY_AttributeListIterNext (Some 1%positive)) sample_heap
      = Ret (replicate 3 NULL, sample_heap))
  /\ (LLVMPY_AttributeSetIterNext (Some 2%positive) sample_heap = Ret (None, sample_heap)
      /\ repeat_call 3 (LLVMPY_AttributeSetIterNext (Some 2%positive)) sample_heap
         = Ret (replicate 3 None, sample_heap)).
Proof.
  split.
  - apply (proj1 (C10_advance_past_end_is_idempotent sample_heap 1%positive 3)
             {| list_cur := ConstIterator (fn_attributes fn_baz) 3;
                list_end := end_ (fn_attributes fn_baz) |});
      reflexivity.
  - apply (proj2 (C10_advance_past_end_is_idempotent sample_heap 2%positive 3)
             {| set_cur := ConstIterator [attr_nonnull] 1;
                set_end := end_ [attr_nonnull] |});
      reflexivity.
Defined.

(** ** Attribute introspection *)

(** The null handle is the one handle that stands for no attribute: every
    query answers [false] on it. *)
Lemma classification_NULL : classification None = [false; false; false; false].
Proof. reflexivity. Qed.

(** C8: for the handle of any attribute, exactly one of the four queries
    [LLVMPY_AttributeIsType], [LLVMPY_AttributeIsInt],
    [LLVMPY_AttributeIsEnum], [LLVMPY_AttributeIsString] answers [true]. *)
Theorem C8_exactly_one_classification (attr : AttributeImpl) :
  count_true (classification (wrap_Attribute {| pImpl := Some attr |})) = 1%nat.
Proof.
  unfold classification, LLVMPY_AttributeIsType, LLVMPY_AttributeIsInt,
    LLVMPY_AttributeIsEnum, LLVMPY_AttributeIsString,
    isTypeAttribute, isIntAttribute, isEnumAttribute, isStringAttribute.
  cbn [wrap_Attribute unwrap_Attribute pImpl].
  destruct (KindID attr); reflexivity.
Qed.

Lemma StringRef_whole (Name : string) : StringRef Name (String.length Name) = Name.
Proof.
  unfold StringRef. induction Name as [|c rest IH]; [reflexivity|].
  cbn [String.length String.substring]. rewrite IH. reflexivity.
Qed.

(** C9: [LLVMPY_GetEnumAttributeKindForName] is a function of the name
    alone: it returns 0 for a name the table does not register, and for a
    registered name the id of the table, which is not 0, whenever it is
    called with that name. *)
Theorem C9_enum_kind_for_name
    (AttrKindNames : gmap string positive) (name : string) :
  (AttrKindNames !! name = None ->
     LLVMPY_GetEnumAttributeKindForName AttrKindNames name (String.length name) = 0)
  /\ (forall k : positive,
        AttrKindNames !! name = Some k ->
        LLVMPY_GetEnumAttributeKindForName AttrKindNames name (String.length name)
          = Z.pos k
        /\ LLVMPY_GetEnumAttributeKindForName AttrKindNames name (String.length name)
          <> 0).
Proof.
  unfold LLVMPY_GetEnumAttributeKindForName, LLVMGetEnumAttributeKindForName,
    getAttrKindFromName.
  rewrite StringRef_whole. split.
  - intros ->. reflexivity.
  - intros k ->. split; [reflexivity|discriminate].
Qed.

Lemma C9_enum_kind_witness :
  LLVMPY_GetEnumAttributeKindForName sample_AttrKindNames "no-such-attribute" 17 = 0
  /\ LLVMPY_GetEnumAttributeKindForName sample_AttrKindNames "nonnull" 7 = 40
  /\ LLVMPY_GetEnumAttributeKindForName sample_AttrKindNames "nonnull" 7 <> 0.
Proof.
  split.
  - apply (proj1 (C9_enum_kind_for_name sample_AttrKindNames "no-such-attribute")).
    vm_compute. reflexivity.
  - apply (proj2 (C9_enum_kind_for_name sample_AttrKindNames "nonnull") 40%positive).
    vm_compute. reflexivity.
Defined.

(** ** Pass-manager-builder properties *)

Lemma to_unsigned_id (v : Z) : 0 <= v < 2 ^ 32 -> to_unsigned v = v.
Proof. intros H. unfold to_unsigned. apply Z.mod_small. exact H. Qed.

Lemma int_of_bool_of_int (v : Z) :
  int_of_bool (bool_of_int v) = if v =? 0 then 0 else 1.
Proof. unfold int_of_bool, bool_of_int. destruct (v =? 0); reflexivity. Qed.

Section BuilderRoundTrip.

Variable h : gmap positive Object.
Variable p : positive.
Variable b : PassManagerBuilder.
Hypothesis Hp : h !! p = Some (ObjPassManagerBuilder b).

Ltac run_set_get :=
  unfold set_then_get; run_M; rewrite Hp; cbv beta iota;
  rewrite Hp; cbv beta iota; rewrite lookup_insert_eq; reflexivity.

Lemma OptLevel_set_get (v : Z) :
  set_then_get (LLVMPY_PassManagerBuilderSetOptLevel (Some p) v)
               (LLVMPY_PassManagerBuilderGetOptLevel (Some p)) h
  = Ret (to_unsigned v,
         <[p := ObjPassManagerBuilder (with_OptLevel b (to_unsigned v))]> h).
Proof.
  unfold LLVMPY_PassManagerBuilderSetOptLevel, LLVMPassManagerBuilderSetOptLevel,
    LLVMPY_PassManagerBuilderGetOptLevel.
  run_set_get.
Qed.

Lemma SizeLevel_set_get (v : Z) :
  set_then_get (LLVMPY_PassManagerBuilderSetSizeLevel (Some p) v)
               (LLVMPY_PassManagerBuilderGetSizeLevel (Some p)) h
  = Ret (to_unsigned v,
         <[p := ObjPassManagerBuilder (with_SizeLevel b (to_unsigned v))]> h).
Proof.
  unfold LLVMPY_PassManagerBuilderSetSizeLevel, LLVMPassManagerBuilderSetSizeLevel,
    LLVMPY_PassManagerBuilderGetSizeLevel.
  run_set_get.
Qed.

Lemma DisableUnrollLoops_set_get (v : Z) :
  set_then_get (LLVMPY_PassManagerBuilderSetDisableUnrollLoops (Some p) v)
               (LLVMPY_PassManagerBuilderGetDisableUnrollLoops (Some p)) h
  = Ret (int_of_bool (bool_of_int v),
         <[p := ObjPassManagerBuilder (with_DisableUnrollLoops b (bool_of_int v))]> h).
Proof.
  unfold LLVMPY_PassManagerBuilderSetDisableUnrollLoops,
    LLVMPassManagerBuilderSetDisableUnrollLoops,
    LLVMPY_PassManagerBuilderGetDisableUnrollLoops.
  run_set_get.
Qed.

Lemma LoopVectorize_set_get (v : Z) :
  set_then_get (LLVMPY_PassManagerBuilderSetLoopVectorize (Some p) v)
               (LLVMPY_PassManagerBuilderGetLoopVectorize (Some p)) h
  = Ret (int_of_bool (bool_of_int v),
         <[p := ObjPassManagerBuilder (with_LoopVectorize b (bool_of_int v))]> h).
Proof.
  unfold LLVMPY_PassManagerBuilderSetLoopVectorize,
    LLVMPY_PassManagerBuilderGetLoopVectorize.
  run_set_get.
Qed.

Lemma SLPVectorize_set_get (v : Z) :
  set_then_get (LLVMPY_PassManagerBuilderSetSLPVectorize (Some p) v)
               (LLVMPY_PassManagerBuilderGetSLPVectorize (Some p)) h
  = Ret (int_of_bool (bool_of_int v),
         <[p := ObjPassManagerBuilder (with_SLPVectorize b (bool_of_int v))]> h).
Proof.
  unfold LLVMPY_PassManagerBuilderSetSLPVectorize,
    LLVMPY_PassManagerBuilderGetSLPVectorize.
  run_set_get.
Qed.

End BuilderRoundTrip.

(** C7, as stated, fails for the toggles: after setting loop-vectorize to 2
    the getter returns 1. *)
Lemma C7_toggle_does_not_round_trip :
  ~ (forall (h : gmap positive Object) (p : positive) (b : PassManagerBuilder) (v : Z),
        h !! p = Some (ObjPassManagerBuilder b) ->
        int_range v ->
        exists h',
          set_then_get (LLVMPY_PassManagerBuilderSetLoopVectorize (Some p) v)
                       (LLVMPY_PassManagerBuilderGetLoopVectorize (Some p)) h
          = Ret (v, h')).
Proof.
  intros H.
  destruct (H sample_heap 3%positive sample_builder 2) as [h' Hh'].
  - reflexivity.
  - unfold int_range. lia.
  - rewrite (LoopVectorize_set_get sample_heap 3%positive sample_builder) in Hh'
      by reflexivity.
    discriminate.
Qed.

(** C7 (amended): on a live builder, setting the optimisation level or the
    size level to an [unsigned] value and getting it returns that value; for
    the three toggles (disable-unroll-loops, loop-vectorize, SLP-vectorize)
    the getter returns 0 after setting 0 and 1 after setting any other
    [int], so it returns the value set exactly when that value is 0 or 1. *)
Theorem C7_set_then_get
    (h : gmap positive Object) (p : positive) (b : PassManagerBuilder)
    (level flag : Z) :
  h !! p = Some (ObjPassManagerBuilder b) ->
  0 <= level < 2 ^ 32 ->
  int_range flag ->
  set_then_get (LLVMPY_PassManagerBuilderSetOptLevel (Some p) level)
               (LLVMPY_PassManagerBuilderGetOptLevel (Some p)) h
    = Ret (level, <[p := ObjPassManagerBuilder (with_OptLevel b level)]> h)
  /\ set_then_get (LLVMPY_PassManagerBuilderSetSizeLevel (Some p) level)
                  (LLVMPY_PassManagerBuilderGetSizeLevel (Some p)) h
    = Ret (level, <[p := ObjPassManagerBuilder (with_SizeLevel b level)]> h)
  /\ set_then_get (LLVMPY_PassManagerBuilderSetDisableUnrollLoops (Some p) flag)
                  (LLVMPY_PassManagerBuilderGetDisableUnrollLoops (Some p)) h
    = Ret (if flag =? 0 then 0 else 1,
           <[p := ObjPassManagerBuilder (with_DisableUnrollLoops b (bool_of_int flag))]> h)
  /\ set_then_get (LLVMPY_PassManagerBuilderSetLoopVectorize (Some p) flag)
                  (LLVMPY_PassManagerBuilderGetLoopVectorize (Some p)) h
    = Ret (if flag =? 0 then 0 else 1,
           <[p := ObjPassManagerBuilder (with_LoopVectorize b (bool_of_int flag))]> h)
  /\ set_then_get (LLVMPY_PassManagerBuilderSetSLPVectorize (Some p) flag)
                  (LLVMPY_PassManagerBuilderGetSLPVectorize (Some p)) h
    = Ret (if flag =? 0 then 0 else 1,
           <[p := ObjPassManagerBuilder (with_SLPVectorize b (bool_of_int flag))]> h)
  /\ ((if flag =? 0 then 0 else 1) = flag <-> flag = 0 \/ flag = 1).
Proof.
  intros Hp Hlevel _.
  rewrite (OptLevel_set_get h p b Hp), (SizeLevel_set_get h p b Hp),
    (DisableUnrollLoops_set_get h p b Hp), (LoopVectorize_set_get h p b Hp),
    (SLPVectorize_set_get h p b Hp).
  rewrite (to_unsigned_id level Hlevel), int_of_bool_of_int.
  repeat split; try reflexivity.
  - destruct (Z.eqb_spec flag 0); lia.
  - destruct (Z.eqb_spec flag 0); lia.
Qed.

Lemma C7_set_then_get_witness :
  set_then_get (LLVMPY_PassManagerBuilderSetOptLevel (Some 3%positive) 3)
               (LLVMPY_PassManagerBuilderGetOptLevel (Some 3%positive)) sample_heap
    = Ret (3, <[3%positive := ObjPassManagerBuilder (with_OptLevel sample_builder 3)]>
                sample_heap)
  /\ set_then_get (LLVMPY_PassManagerBuilderSetLoopVectorize (Some 3%positive) 2)
                  (LLVMPY_PassManagerBuilderGetLoopVectorize (Some 3%positive)) sample_heap
    = Ret (1, <[3%positive := ObjPassManagerBuilder (with_LoopVectorize sample_builder true)]>
                sample_heap).
Proof.
  destruct (C7_set_then_get sample_heap 3%positive sample_builder 3 2)
    as (HOpt & _ & _ & HLoop & _).
  - reflexivity.
  - lia.
  - unfold int_range. lia.
  - split; [exact HOpt | exact HLoop].
Defined.

(** ** Creating and disposing cursors *)

Lemma delete_new (h : gmap positive Object) (o : Object) :
  delete_ (Some (fresh (dom h))) (<[fresh (dom h) := o]> h) = Ret (tt, h).
Proof.
  unfold delete_. rewrite lookup_insert_eq, delete_insert_eq.
  rewrite delete_id by apply new_fresh. reflexivity.
Qed.

(** X1: on a value of the kind it expects, each of the cursor constructors
    for functions, call instructions, invoke instructions and global
    variables returns a non-null handle at an address that held no object,
    adds to the heap only the cursor at its start position, and the matching
    dispose call gives back the heap as it was before the cursor was made. *)
Theorem X1_create_then_dispose_restores_heap (h : gmap positive Object) :
  exists a : positive,
    h !! a = None
    /\ (forall Fn : Function,
          LLVMPY_FunctionAttributesIter (VFunction Fn) h
            = Ret (Some a, <[a := ListCursor (fn_attributes Fn) 0]> h)
          /\ LLVMPY_DisposeAttributeListIter (Some a)
               (<[a := ListCursor (fn_attributes Fn) 0]> h) = Ret (tt, h))
    /\ (forall attrs : AttributeList,
          LLVMPY_CallInstAttributesIter (VCallInst attrs) h
            = Ret (Some a, <[a := ListCursor attrs 0]> h)
          /\ LLVMPY_InvokeInstAttributesIter (VInvokeInst attrs) h
            = Ret (Some a, <[a := ListCursor attrs 0]> h)
          /\ LLVMPY_DisposeAttributeListIter (Some a) (<[a := ListCursor attrs 0]> h)
            = Ret (tt, h))
    /\ (forall g : GlobalVariable,
          LLVMPY_GlobalAttributesIter (VGlobalVariable g) h
            = Ret (Some a, <[a := SetCursor (gv_attributes g) 0]> h)
          /\ LLVMPY_DisposeAttributeSetIter (Some a)
               (<[a := SetCursor (gv_attributes g) 0]> h) = Ret (tt, h)).
Proof.
  exists (fresh (dom h)). split; [apply new_fresh|].
  repeat split; try reflexivity; apply delete_new.
Qed.

(** X5: an advance that returns touches nothing but its own cursor: every
    other live object is in the heap afterwards as it was before.  A null
    result leaves the whole heap unchanged; a non-null result of the
    list-level advance is an address that held no object before. *)
Theorem X5_advance_leaves_other_objects
    (h h' : gmap positive Object) (GI : option positive) :
  (forall r : option positive,
      LLVMPY_AttributeListIterNext GI h = Ret (r, h') ->
      (forall x o, Some x <> GI -> h !! x = Some o -> h' !! x = Some o)
      /\ (r = NULL -> h' = h)
      /\ (forall b, r = Some b -> h !! b = None /\ is_Some (h' !! b)))
  /\ (forall r : option AttributeImpl,
        LLVMPY_AttributeSetIterNext GI h = Ret (r, h') ->
        (forall x, Some x <> GI -> h' !! x = h !! x)
        /\ (r = None -> h' = h)).
Proof.
  split; intros r H.
  - unfold LLVMPY_AttributeListIterNext, new_AttributeSetIterator in H.
    revert H. run_M.
    destruct GI as [a|]; [|discriminate].
    destruct (h !! a) as [[it| |]|] eqn:Ha; try discriminate.
    destruct (iter_neq (list_cur it) (list_end it)).
    + rewrite Ha.
      destruct (base (list_cur it) !! off (list_cur it)) as [set|]; [|discriminate].
      intros H. injection H as <- <-.
      match goal with |- context [fresh (dom ?m)] => set (h0 := m) end.
      pose proof (new_fresh h0) as Hb. set (b := fresh (dom h0)) in *.
      assert (b <> a) as Hba.
      { intros ->. subst h0. rewrite lookup_insert_eq in Hb. discriminate. }
      assert (h !! b = None) as Hb'.
      { subst h0. rewrite lookup_insert_ne in Hb by congruence. exact Hb. }
      split; [|split].
      * intros x o Hx Hxo. rewrite lookup_insert_ne by congruence.
        subst h0. rewrite lookup_insert_ne by congruence. exact Hxo.
      * discriminate.
      * intros b' [= <-]. split; [exact Hb'|]. rewrite lookup_insert_eq. eauto.
    + intros H. injection H as <- <-. split; [|split]; auto. discriminate.
  - unfold LLVMPY_AttributeSetIterNext in H. revert H. run_M.
    destruct GI as [a|]; [|discriminate].
    destruct (h !! a) as [[|it|]|] eqn:Ha; try discriminate.
    destruct (iter_neq (set_cur it) (set_end it)).
    + rewrite Ha.
      destruct (base (set_cur it) !! off (set_cur it)) as [attr|]; [|discriminate].
      intros H. injection H as <- <-. split.
      * intros x Hx. rewrite lookup_insert_ne by congruence. reflexivity.
      * discriminate.
    + intros H. injection H as <- <-. split; auto.
Qed.

Lemma X5_advance_witness :
  ((forall x o, Some x <> Some 1%positive ->
      sample_heap_start !! x = Some o ->
      <[4%positive := SetCursor [attr_noinline; attr_frame_pointer] 0]>
        (<[1%positive := ListCursor (fn_attributes fn_baz) 1]> sample_heap_start) !! x
      = Some o)
   /\ (Some 4%positive = NULL ->
       <[4%positive := SetCursor [attr_noinline; attr_frame_pointer] 0]>
         (<[1%positive := ListCursor (fn_attributes fn_baz) 1]> sample_heap_start)
       = sample_heap_start)
   /\ (forall b, Some 4%positive = Some b ->
         sample_heap_start !! b = None
         /\ is_Some
              (<[4%positive := SetCursor [attr_noinline; attr_frame_pointer] 0]>
                 (<[1%positive := ListCursor (fn_attributes fn_baz) 1]> sample_heap_start)
               !! b)))
  /\ ((forall x, Some x <> Some 2%positive ->
         <[2%positive := SetCursor [attr_nonnull] 1]> sample_heap_start !! x
         = sample_heap_start !! x)
      /\ (Some attr_nonnull = None ->
          <[2%positive := SetCursor [attr_nonnull] 1]> sample_heap_start
          = sample_heap_start)).
Proof.
  split.
  - apply (proj1 (X5_advance_leaves_other_objects sample_heap_start
                    (<[4%positive := SetCursor [attr_noinline; attr_frame_pointer] 0]>
                       (<[1%positive := ListCursor (fn_attributes fn_baz) 1]>
                          sample_heap_start))
                    (Some 1%positive))
             (Some 4%positive)).
    reflexivity.
  - apply (proj2 (X5_advance_leaves_other_objects sample_heap_start
                    (<[2%positive := SetCursor [attr_nonnull] 1]> sample_heap_start)
                    (Some 2%positive))
             (Some attr_nonnull)).
    reflexivity.
Defined.

(** X6: after a live cursor is disposed its address holds no object, and a
    further advance or a second dispose through the same handle is undefined
    behaviour; this holds for list-level and for set-level cursors. *)
Theorem X6_use_after_dispose_is_undefined
    (h : gmap positive Object) (a : positive) :
  (forall it : AttributeListIterator,
      h !! a = Some (ObjAttributeListIterator it) ->
      LLVMPY_DisposeAttributeListIter (Some a) h = Ret (tt, delete a h)
      /\ delete a h !! a = None
      /\ LLVMPY_AttributeListIterNext (Some a) (delete a h) = Undefined
      /\ LLVMPY_DisposeAttributeListIter (Some a) (delete a h) = Undefined)
  /\ (forall it : AttributeSetIterator,
        h !! a = Some (ObjAttributeSetIterator it) ->
        LLVMPY_DisposeAttributeSetIter (Some a) h = Ret (tt, delete a h)
        /\ delete a h !! a = None
        /\ LLVMPY_AttributeSetIterNext (Some a) (delete a h) = Undefined
        /\ LLVMPY_DisposeAttributeSetIter (Some a) (delete a h) = Undefined).
Proof.
  split; intros it Ha.
  - unfold LLVMPY_DisposeAttributeListIter, LLVMPY_AttributeListIterNext, delete_.
    run_M. rewrite Ha, lookup_delete_eq. repeat split.
  - unfold LLVMPY_DisposeAttributeSetIter, LLVMPY_AttributeSetIterNext, delete_.
    run_M. rewrite Ha, lookup_delete_eq. repeat split.
Qed.

Lemma X6_use_after_dispose_witness :
  LLVMPY_DisposeAttributeListIter (Some 1%positive) sample_heap
    = Ret (tt, delete 1%positive sample_heap)
  /\ delete 1%positive sample_heap !! 1%positive = None
  /\ LLVMPY_AttributeListIterNext (Some 1%positive) (delete 1%positive sample_heap)
     = Undefined
  /\ LLVMPY_DisposeAttributeListIter (Some 1%positive) (delete 1%positive sample_heap)
     = Undefined.
Proof.
  apply (proj1 (X6_use_after_dispose_is_undefined sample_heap 1%positive)
           {| list_cur := ConstIterator (fn_attributes fn_baz) 3;
              list_end := end_ (fn_attributes fn_baz) |}).
  reflexivity.
Defined.

(** ** Whole iterations *)

Lemma dispose_all_cons (h h1 h2 : gmap positive Object) (GI : option positive)
    (rest : list (option positive)) :
  dispose_all rest h = Ret (tt, h1) ->
  LLVMPY_DisposeAttributeSetIter GI h1 = Ret (tt, h2) ->
  dispose_all (GI :: rest) h = Ret (tt, h2).
Proof.
  intros H1 H2. cbn [dispose_all]. run_M. rewrite H1. exact H2.
Qed.

(** Whatever number of advances a list-level cursor has made, disposing the
    handles they returned undoes every allocation: what is left is the heap
    from before, with the cursor moved. *)
Lemma advance_list_then_dispose_all (n : nat) :
  forall (h : gmap positive Object) (a : positive) (arr : AttributeList) (i : nat),
    (i <= length arr)%nat ->
    h !! a = Some (ListCursor arr i) ->
    exists (rs : list (option positive)) (h' : gmap positive Object),
      repeat_call n (LLVMPY_AttributeListIterNext (Some a)) h = Ret (rs, h')
      /\ dispose_all rs h'
         = Ret (tt, <[a := ListCursor arr (Nat.min (i + n) (length arr))]> h).
Proof.
  induction n as [|n IH]; intros h a arr i Hi Ha.
  - exists [], h. split; [reflexivity|].
    replace (Nat.min (i + 0) (length arr)) with i by lia.
    rewrite insert_id by exact Ha. reflexivity.
  - destruct (decide (i < length arr)%nat) as [Hlt|Hge].
    + destruct (lookup_lt_is_Some_2 arr i Hlt) as [set Hset].
      pose proof (ListIterNext_step h a arr i set Ha Hset) as Hstep.
      set (h0 := <[a := ListCursor arr (S i)]> h) in *.
      pose proof (new_fresh h0) as Hb0.
      set (b := fresh (dom h0)) in *.
      set (h1 := <[b := SetCursor set 0]> h0) in *.
      assert (b <> a) as Hba.
      { intros Heq. rewrite Heq in Hb0. subst h0.
        rewrite lookup_insert_eq in Hb0. discriminate. }
      assert (h !! b = None) as Hb.
      { subst h0. rewrite lookup_insert_ne in Hb0 by congruence. exact Hb0. }
      assert (h1 !! a = Some (ListCursor arr (S i))) as Ha1.
      { subst h1 h0. rewrite lookup_insert_ne by congruence. apply lookup_insert_eq. }
      destruct (IH h1 a arr (S i) ltac:(lia) Ha1) as (rs & h' & Hrun & Hdisp).
      exists (Some b :: rs), h'. split.
      * exact (repeat_call_S _ n h h1 h' (Some b) rs Hstep Hrun).
      * apply (dispose_all_cons h' _ _ (Some b) rs Hdisp).
        unfold LLVMPY_DisposeAttributeSetIter, delete_.
        rewrite lookup_insert_ne by congruence.
        subst h1. rewrite lookup_insert_eq. do 2 f_equal.
        replace (i + S n)%nat with (S i + n)%nat by lia.
        apply map_eq. intros x.
        destruct (decide (x = b)) as [->|Hxb].
        -- rewrite lookup_delete_eq, lookup_insert_ne by congruence. congruence.
        -- rewrite lookup_delete_ne by congruence.
           destruct (decide (x = a)) as [->|Hxa].
           ++ rewrite !lookup_insert_eq. reflexivity.
           ++ rewrite !(lookup_insert_ne _ a) by congruence.
              rewrite lookup_insert_ne by congruence. subst h0.
              rewrite lookup_insert_ne by congruence. reflexivity.
    + assert (i = length arr) as -> by lia.
      pose proof (ListIterNext_at_end h a _ Ha (ListCursor_at_end arr)) as Hstep.
      destruct (IH h a arr (length arr) ltac:(lia) Ha) as (rs & h' & Hrun & Hdisp).
      exists (NULL :: rs), h'. split.
      * exact (repeat_call_S _ n h h h' NULL rs Hstep Hrun).
      * apply (dispose_all_cons h' _ _ NULL rs Hdisp).
        replace (Nat.min (length arr + S n) (length arr)) with
          (Nat.min (length arr + n) (length arr)) by lia.
        reflexivity.
Qed.

(** X2: a caller that makes a list-level cursor for a function, advances it
    any number of times (short of, up to or past exhaustion), disposes every
    handle the advances returned (the null ones included) and then the
    cursor itself, never meets undefined behaviour and ends with the heap it
    started from: no object is leaked and none is lost. *)
Theorem X2_list_iteration_paired_disposal_restores_heap
    (h : gmap positive Object) (Fn : Function) (n : nat) :
  exists (a : positive) (h1 : gmap positive Object) (rs : list (option positive))
         (h2 h3 : gmap positive Object),
    LLVMPY_FunctionAttributesIter (VFunction Fn) h = Ret (Some a, h1)
    /\ repeat_call n (LLVMPY_AttributeListIterNext (Some a)) h1 = Ret (rs, h2)
    /\ length rs = n
    /\ dispose_all rs h2 = Ret (tt, h3)
    /\ LLVMPY_DisposeAttributeListIter (Some a) h3 = Ret (tt, h).
Proof.
  set (a := fresh (dom h)).
  set (h1 := <[a := ListCursor (fn_attributes Fn) 0]> h).
  destruct (advance_list_then_dispose_all n h1 a (fn_attributes Fn) 0 ltac:(lia)
              (lookup_insert_eq _ _ _)) as (rs & h2 & Hrun & Hdisp).
  destruct (advance_list_spec n h1 a (fn_attributes Fn) 0 ltac:(lia)
              (lookup_insert_eq _ _ _)) as (rs' & h2' & Hrun' & Hlen & _).
  rewrite Hrun in Hrun'. injection Hrun' as <- <-.
  exists a, h1, rs, h2. eexists.
  split; [reflexivity|]. split; [exact Hrun|]. split; [exact Hlen|].
  split; [exact Hdisp|].
  unfold LLVMPY_DisposeAttributeListIter, delete_.
  rewrite lookup_insert_eq. do 2 f_equal.
  subst h1. rewrite !delete_insert_eq.
  apply delete_id, new_fresh.
Qed.

(** A set-level cursor at its start, advanced once more than its set has
    attributes, returns the attributes in the order of the set and then
    null. *)
Lemma set_cursor_enumerates (h : gmap positive Object) (b : positive)
    (attrs : AttributeSet) :
  h !! b = Some (SetCursor attrs 0) ->
  repeat_call (S (length attrs)) (LLVMPY_AttributeSetIterNext (Some b)) h
  = Ret ((Some <$> attrs) ++ [None], <[b := SetCursor attrs (length attrs)]> h).
Proof.
  intros Hb.
  destruct (advance_set_spec (S (length attrs)) h b attrs 0 ltac:(lia) Hb)
    as (rs & Hrun & Hlen & Hsome & Hnull).
  rewrite Hrun.
  replace (Nat.min (0 + S (length attrs)) (length attrs)) with (length attrs) by lia.
  do 2 f_equal. apply list_eq. intros k.
  destruct (decide (k < length attrs)%nat) as [Hlt|Hge].
  - destruct (Hsome k ltac:(lia) ltac:(simpl; lia)) as (attr & Ha & Hr).
    simpl in Ha. rewrite Hr, lookup_app_l by (rewrite length_fmap; lia).
    rewrite list_lookup_fmap, Ha. reflexivity.
  - destruct (decide (k = length attrs)) as [->|Hne].
    + rewrite Hnull by (simpl; lia).
      rewrite lookup_app_r by (rewrite length_fmap; lia).
      rewrite length_fmap, Nat.sub_diag. reflexivity.
    + rewrite !lookup_ge_None_2; [reflexivity| |lia].
      rewrite length_app, length_fmap. simpl. lia.
Qed.

(** X3: the set-level cursors a list-level cursor hands out do not depend on
    it: after the list-level cursor of a function has been advanced to
    exhaustion and disposed, the handle returned for every attribute group
    is still live, and advancing it returns the attributes of that group in
    order, then null. *)
Theorem X3_set_cursors_outlive_list_cursor
    (h : gmap positive Object) (Fn : Function) :
  exists (a : positive) (h1 : gmap positive Object) (rs : list (option positive))
         (h2 h3 : gmap positive Object),
    LLVMPY_FunctionAttributesIter (VFunction Fn) h = Ret (Some a, h1)
    /\ repeat_call (S (length (fn_attributes Fn)))
         (LLVMPY_AttributeListIterNext (Some a)) h1 = Ret (rs, h2)
    /\ LLVMPY_DisposeAttributeListIter (Some a) h2 = Ret (tt, h3)
    /\ forall (k : nat) (set : AttributeSet),
         fn_attributes Fn !! k = Some set ->
         exists b : positive,
           rs !! k = Some (Some b)
           /\ repeat_call (S (length set)) (LLVMPY_AttributeSetIterNext (Some b)) h3
              = Ret ((Some <$> set) ++ [None],
                     <[b := SetCursor set (length set)]> h3).
Proof.
  set (a := fresh (dom h)).
  set (h1 := <[a := ListCursor (fn_attributes Fn) 0]> h).
  assert (h1 !! a = Some (ListCursor (fn_attributes Fn) 0)) as Ha1
      by apply lookup_insert_eq.
  destruct (advance_list_spec (S (length (fn_attributes Fn))) h1 a
              (fn_attributes Fn) 0 ltac:(lia) Ha1)
    as (rs & h2 & Hrun & Hlen & Ha2 & _ & Hsome & _).
  exists a, h1, rs, h2, (delete a h2).
  split; [reflexivity|]. split; [exact Hrun|]. split.
  - unfold LLVMPY_DisposeAttributeListIter, delete_. rewrite Ha2. reflexivity.
  - intros k set Hk.
    pose proof (lookup_lt_Some _ _ _ Hk) as Hlt.
    destruct (Hsome k ltac:(lia) ltac:(simpl; lia)) as (b & set' & Hr & Hs & Hb & Hb1).
    simpl in Hs. rewrite Hk in Hs. injection Hs as <-.
    exists b. split; [exact Hr|].
    apply set_cursor_enumerates.
    rewrite lookup_delete_ne; [exact Hb|].
    intros <-. rewrite Ha1 in Hb1. discriminate.
Qed.

(** X4: the cursor made for a global variable, advanced once more than the
    variable has attributes, returns exactly the variable's attributes in
    their order followed by null, and disposing it then gives back the heap
    from before the cursor was made. *)
Theorem X4_global_cursor_enumerates_in_order
    (h : gmap positive Object) (g : GlobalVariable) :
  exists (a : positive) (h1 h2 : gmap positive Object),
    LLVMPY_GlobalAttributesIter (VGlobalVariable g) h = Ret (Some a, h1)
    /\ repeat_call (S (length (gv_attributes g)))
         (LLVMPY_AttributeSetIterNext (Some a)) h1
       = Ret ((Some <$> gv_attributes g) ++ [None], h2)
    /\ LLVMPY_DisposeAttributeSetIter (Some a) h2 = Ret (tt, h).
Proof.
  set (a := fresh (dom h)).
  exists a, (<[a := SetCursor (gv_attributes g) 0]> h). eexists.
  split; [reflexivity|]. split.
  - apply set_cursor_enumerates, lookup_insert_eq.
  - unfold LLVMPY_DisposeAttributeSetIter, delete_.
    rewrite lookup_insert_eq. do 2 f_equal.
    rewrite !delete_insert_eq. apply delete_id, new_fresh.
Qed.

(** X7: the cursor made for an argument walks the attribute set in the
    argument's slot of its function's attribute list: advanced once more
    than that set has attributes it returns them in order, then null.  When
    the list has no slot for the argument the very first advance returns
    null.  Disposing the cursor gives back the heap from before. *)
Theorem X7_argument_cursor_enumerates_slot
    (h : gmap positive Object) (arg : Argument) :
  let attrs := getParamAttrs (fn_attributes (arg_parent arg)) (ArgNo arg) in
  exists (a : positive) (h1 h2 : gmap positive Object),
    LLVMPY_ArgumentAttributesIter (VArgument arg) h = Ret (Some a, h1)
    /\ repeat_call (S (length attrs)) (LLVMPY_AttributeSetIterNext (Some a)) h1
       = Ret ((Some <$> attrs) ++ [None], h2)
    /\ LLVMPY_DisposeAttributeSetIter (Some a) h2 = Ret (tt, h)
    /\ ((length (fn_attributes (arg_parent arg)) <= ArgNo arg + 2)%nat ->
        LLVMPY_AttributeSetIterNext (Some a) h1 = Ret (None, h1)).
Proof.
  intros attrs. set (a := fresh (dom h)).
  exists a, (<[a := SetCursor attrs 0]> h). eexists.
  split; [reflexivity|]. split; [|split].
  - apply set_cursor_enumerates, lookup_insert_eq.
  - unfold LLVMPY_DisposeAttributeSetIter, delete_.
    rewrite lookup_insert_eq. do 2 f_equal.
    rewrite !delete_insert_eq. apply delete_id, new_fresh.
  - intros Hslot.
    assert (attrs = []) as Hnil.
    { subst attrs. unfold getParamAttrs.
      rewrite lookup_ge_None_2 by exact Hslot. reflexivity. }
    rewrite Hnil.
    apply (SetIterNext_at_end _ a {| set_cur := ConstIterator [] 0; set_end := end_ [] |}).
    + apply lookup_insert_eq.
    + reflexivity.
Qed.

(** ** More on the builder *)

Section BuilderFacts.

Variable h : gmap positive Object.
Variable p : positive.
Variable b : PassManagerBuilder.
Hypothesis Hp : h !! p = Some (ObjPassManagerBuilder b).

Lemma read_properties_live :
  read_properties (Some p) h = Ret (properties_of b, h).
Proof.
  unfold read_properties, LLVMPY_PassManagerBuilderGetOptLevel,
    LLVMPY_PassManagerBuilderGetSizeLevel,
    LLVMPY_PassManagerBuilderGetDisableUnrollLoops,
    LLVMPY_PassManagerBuilderGetLoopVectorize,
    LLVMPY_PassManagerBuilderGetSLPVectorize.
  run_M. repeat (rewrite Hp; cbv beta iota). reflexivity.
Qed.

Ltac run_setter := run_M; rewrite Hp; cbv beta iota; rewrite Hp; reflexivity.

Lemma SetOptLevel_live (v : Z) :
  LLVMPY_PassManagerBuilderSetOptLevel (Some p) v h
  = Ret (tt, <[p := ObjPassManagerBuilder (with_OptLevel b (to_unsigned v))]> h).
Proof.
  unfold LLVMPY_PassManagerBuilderSetOptLevel, LLVMPassManagerBuilderSetOptLevel.
  run_setter.
Qed.

Lemma SetSizeLevel_live (v : Z) :
  LLVMPY_PassManagerBuilderSetSizeLevel (Some p) v h
  = Ret (tt, <[p := ObjPassManagerBuilder (with_SizeLevel b (to_unsigned v))]> h).
Proof.
  unfold LLVMPY_PassManagerBuilderSetSizeLevel, LLVMPassManagerBuilderSetSizeLevel.
  run_setter.
Qed.

Lemma SetDisableUnrollLoops_live (v : Z) :
  LLVMPY_PassManagerBuilderSetDisableUnrollLoops (Some p) v h
  = Ret (tt, <[p := ObjPassManagerBuilder (with_DisableUnrollLoops b (bool_of_int v))]> h).
Proof.
  unfold LLVMPY_PassManagerBuilderSetDisableUnrollLoops,
    LLVMPassManagerBuilderSetDisableUnrollLoops.
  run_setter.
Qed.

Lemma SetLoopVectorize_live (v : Z) :
  LLVMPY_PassManagerBuilderSetLoopVectorize (Some p) v h
  = Ret (tt, <[p := ObjPassManagerBuilder (with_LoopVectorize b (bool_of_int v))]> h).
Proof. unfold LLVMPY_PassManagerBuilderSetLoopVectorize. run_setter. Qed.

Lemma SetSLPVectorize_live (v : Z) :
  LLVMPY_PassManagerBuilderSetSLPVectorize (Some p) v h
  = Ret (tt, <[p := ObjPassManagerBuilder (with_SLPVectorize b (bool_of_int v))]> h).
Proof. unfold LLVMPY_PassManagerBuilderSetSLPVectorize. run_setter. Qed.

Lemma UseInlinerWithThreshold_live (v : Z) :
  LLVMPY_PassManagerBuilderUseInlinerWithThreshold (Some p) v h
  = Ret (tt, <[p := ObjPassManagerBuilder (with_Inliner b (Some (to_unsigned v)))]> h).
Proof.
  unfold LLVMPY_PassManagerBuilderUseInlinerWithThreshold,
    LLVMPassManagerBuilderUseInlinerWithThreshold.
  run_setter.
Qed.

End BuilderFacts.

Lemma M_bind_Ret {A B : Type} (m : M A) (k : A -> M B) (h h1 : gmap positive Object)
    (a : A) :
  m h = Ret (a, h1) -> (m ≫= k) h = k a h1.
Proof. intros H. run_M. rewrite H. reflexivity. Qed.

(** X8: each setter of a live builder changes the one property it names and
    nothing else: read back after the call, the other four of optimisation
    level, size level, disable-unroll-loops, loop-vectorize and SLP-vectorize
    are as before, and so is every other object of the heap.  Choosing an
    inliner threshold changes none of the five. *)
Theorem X8_setters_are_independent
    (h : gmap positive Object) (p : positive) (b : PassManagerBuilder) (v : Z) :
  h !! p = Some (ObjPassManagerBuilder b) ->
  (LLVMPY_PassManagerBuilderSetOptLevel (Some p) v;; read_properties (Some p)) h
    = Ret ((to_unsigned v, SizeLevel b, int_of_bool (DisableUnrollLoops b),
            int_of_bool (LoopVectorize b), int_of_bool (SLPVectorize b)),
           <[p := ObjPassManagerBuilder (with_OptLevel b (to_unsigned v))]> h)
  /\ (LLVMPY_PassManagerBuilderSetSizeLevel (Some p) v;; read_properties (Some p)) h
    = Ret ((OptLevel b, to_unsigned v, int_of_bool (DisableUnrollLoops b),
            int_of_bool (LoopVectorize b), int_of_bool (SLPVectorize b)),
           <[p := ObjPassManagerBuilder (with_SizeLevel b (to_unsigned v))]> h)
  /\ (LLVMPY_PassManagerBuilderSetDisableUnrollLoops (Some p) v;;
      read_properties (Some p)) h
    = Ret ((OptLevel b, SizeLevel b, int_of_bool (bool_of_int v),
            int_of_bool (LoopVectorize b), int_of_bool (SLPVectorize b)),
           <[p := ObjPassManagerBuilder (with_DisableUnrollLoops b (bool_of_int v))]> h)
  /\ (LLVMPY_PassManagerBuilderSetLoopVectorize (Some p) v;; read_properties (Some p)) h
    = Ret ((OptLevel b, SizeLevel b, int_of_bool (DisableUnrollLoops b),
            int_of_bool (bool_of_int v), int_of_bool (SLPVectorize b)),
           <[p := ObjPassManagerBuilder (with_LoopVectorize b (bool_of_int v))]> h)
  /\ (LLVMPY_PassManagerBuilderSetSLPVectorize (Some p) v;; read_properties (Some p)) h
    = Ret ((OptLevel b, SizeLevel b, int_of_bool (DisableUnrollLoops b),
            int_of_bool (LoopVectorize b), int_of_bool (bool_of_int v)),
           <[p := ObjPassManagerBuilder (with_SLPVectorize b (bool_of_int v))]> h)
  /\ (LLVMPY_PassManagerBuilderUseInlinerWithThreshold (Some p) v;;
      read_properties (Some p)) h
    = Ret ((OptLevel b, SizeLevel b, int_of_bool (DisableUnrollLoops b),
            int_of_bool (LoopVectorize b), int_of_bool (SLPVectorize b)),
           <[p := ObjPassManagerBuilder (with_Inliner b (Some (to_unsigned v)))]> h).
Proof.
  intros Hp.
  repeat split.
  - rewrite (M_bind_Ret _ _ _ _ _ (SetOptLevel_live h p b Hp v)).
    rewrite (read_properties_live _ p _ (lookup_insert_eq _ _ _)). reflexivity.
  - rewrite (M_bind_Ret _ _ _ _ _ (SetSizeLevel_live h p b Hp v)).
    rewrite (read_properties_live _ p _ (lookup_insert_eq _ _ _)). reflexivity.
  - rewrite (M_bind_Ret _ _ _ _ _ (SetDisableUnrollLoops_live h p b Hp v)).
    rewrite (read_properties_live _ p _ (lookup_insert_eq _ _ _)). reflexivity.
  - rewrite (M_bind_Ret _ _ _ _ _ (SetLoopVectorize_live h p b Hp v)).
    rewrite (read_properties_live _ p _ (lookup_insert_eq _ _ _)). reflexivity.
  - rewrite (M_bind_Ret _ _ _ _ _ (SetSLPVectorize_live h p b Hp v)).
    rewrite (read_properties_live _ p _ (lookup_insert_eq _ _ _)). reflexivity.
  - rewrite (M_bind_Ret _ _ _ _ _ (UseInlinerWithThreshold_live h p b Hp v)).
    rewrite (read_properties_live _ p _ (lookup_insert_eq _ _ _)). reflexivity.
Qed.

Lemma X8_setters_witness :
  (LLVMPY_PassManagerBuilderSetLoopVectorize (Some 3%positive) 5;;
   read_properties (Some 3%positive)) sample_heap
  = Ret ((2, 0, 0, 1, 0),
         <[3%positive := ObjPassManagerBuilder (with_LoopVectorize sample_builder true)]>
           sample_heap).
Proof.
  destruct (X8_setters_are_independent sample_heap 3%positive sample_builder 5)
    as (_ & _ & _ & HLoop & _).
  - reflexivity.
  - exact HLoop.
Defined.

(** X9: a second call of a property setter overrides the first: calling the
    setter of the optimisation level, the size level, disable-unroll-loops,
    loop-vectorize or SLP-vectorize with [v1] and then with [v2] leaves the
    heap exactly as the one call with [v2] does. *)
Theorem X9_last_set_wins
    (h : gmap positive Object) (p : positive) (b : PassManagerBuilder) (v1 v2 : Z) :
  h !! p = Some (ObjPassManagerBuilder b) ->
  (LLVMPY_PassManagerBuilderSetOptLevel (Some p) v1;;
   LLVMPY_PassManagerBuilderSetOptLevel (Some p) v2) h
    = LLVMPY_PassManagerBuilderSetOptLevel (Some p) v2 h
  /\ (LLVMPY_PassManagerBuilderSetSizeLevel (Some p) v1;;
      LLVMPY_PassManagerBuilderSetSizeLevel (Some p) v2) h
    = LLVMPY_PassManagerBuilderSetSizeLevel (Some p) v2 h
  /\ (LLVMPY_PassManagerBuilderSetDisableUnrollLoops (Some p) v1;;
      LLVMPY_PassManagerBuilderSetDisableUnrollLoops (Some p) v2) h
    = LLVMPY_PassManagerBuilderSetDisableUnrollLoops (Some p) v2 h
  /\ (LLVMPY_PassManagerBuilderSetLoopVectorize (Some p) v1;;
      LLVMPY_PassManagerBuilderSetLoopVectorize (Some p) v2) h
    = LLVMPY_PassManagerBuilderSetLoopVectorize (Some p) v2 h
  /\ (LLVMPY_PassManagerBuilderSetSLPVectorize (Some p) v1;;
      LLVMPY_PassManagerBuilderSetSLPVectorize (Some p) v2) h
    = LLVMPY_PassManagerBuilderSetSLPVectorize (Some p) v2 h.
Proof.
  intros Hp.
  repeat split.
  - rewrite (M_bind_Ret _ _ _ _ _ (SetOptLevel_live h p b Hp v1)).
    rewrite (SetOptLevel_live _ p _ (lookup_insert_eq _ _ _)), (SetOptLevel_live h p b Hp).
    rewrite insert_insert_eq. reflexivity.
  - rewrite (M_bind_Ret _ _ _ _ _ (SetSizeLevel_live h p b Hp v1)).
    rewrite (SetSizeLevel_live _ p _ (lookup_insert_eq _ _ _)), (SetSizeLevel_live h p b Hp).
    rewrite insert_insert_eq. reflexivity.
  - rewrite (M_bind_Ret _ _ _ _ _ (SetDisableUnrollLoops_live h p b Hp v1)).
    rewrite (SetDisableUnrollLoops_live _ p _ (lookup_insert_eq _ _ _)),
      (SetDisableUnrollLoops_live h p b Hp).
    rewrite insert_insert_eq. reflexivity.
  - rewrite (M_bind_Ret _ _ _ _ _ (SetLoopVectorize_live h p b Hp v1)).
    rewrite (SetLoopVectorize_live _ p _ (lookup_insert_eq _ _ _)),
      (SetLoopVectorize_live h p b Hp).
    rewrite insert_insert_eq. reflexivity.
  - rewrite (M_bind_Ret _ _ _ _ _ (SetSLPVectorize_live h p b Hp v1)).
    rewrite (SetSLPVectorize_live _ p _ (lookup_insert_eq _ _ _)),
      (SetSLPVectorize_live h p b Hp).
    rewrite insert_insert_eq. reflexivity.
Qed.

Lemma X9_last_set_witness :
  (LLVMPY_PassManagerBuilderSetOptLevel (Some 3%positive) 1;;
   LLVMPY_PassManagerBuilderSetOptLevel (Some 3%positive) 3) sample_heap
  = LLVMPY_PassManagerBuilderSetOptLevel (Some 3%positive) 3 sample_heap.
Proof.
  destruct (X9_last_set_wins sample_heap 3%positive sample_builder 1 3) as (HOpt & _).
  - reflexivity.
  - exact HOpt.
Defined.

(** X10: [LLVMPY_PassManagerBuilderCreate] returns a non-null handle at an
    address that held no object; through it the five properties read as the
    constructor left them; disposing it gives back the heap from before, and
    reading, setting or disposing through the handle after that is undefined
    behaviour. *)
Theorem X10_builder_create_then_dispose
    (initial_builder : PassManagerBuilder) (h : gmap positive Object) :
  exists p : positive,
    h !! p = None
    /\ LLVMPY_PassManagerBuilderCreate initial_builder h
       = Ret (Some p, <[p := ObjPassManagerBuilder initial_builder]> h)
    /\ read_properties (Some p) (<[p := ObjPassManagerBuilder initial_builder]> h)
       = Ret (properties_of initial_builder,
              <[p := ObjPassManagerBuilder initial_builder]> h)
    /\ LLVMPY_PassManagerBuilderDispose (Some p)
         (<[p := ObjPassManagerBuilder initial_builder]> h) = Ret (tt, h)
    /\ read_properties (Some p) h = Undefined
    /\ (forall v, LLVMPY_PassManagerBuilderSetOptLevel (Some p) v h = Undefined)
    /\ LLVMPY_PassManagerBuilderDispose (Some p) h = Undefined.
Proof.
  exists (fresh (dom h)). pose proof (new_fresh h) as Hp.
  split; [exact Hp|]. split; [reflexivity|]. split; [|split; [|split; [|split]]].
  - apply read_properties_live, lookup_insert_eq.
  - apply delete_new.
  - unfold read_properties, LLVMPY_PassManagerBuilderGetOptLevel. run_M.
    rewrite Hp. reflexivity.
  - intros v.
    unfold LLVMPY_PassManagerBuilderSetOptLevel, LLVMPassManagerBuilderSetOptLevel.
    run_M. rewrite Hp. reflexivity.
  - unfold LLVMPY_PassManagerBuilderDispose, delete_. rewrite Hp. reflexivity.
Qed.

(** ** More on extraction and attribute names *)

Lemma std_replace_absent (s : string) (old_value new_value : Ascii.ascii) :
  occurs old_value s = false -> std_replace s old_value new_value = s.
Proof.
  induction s as [|c rest IH]; simpl; [reflexivity|].
  intros H. apply orb_false_iff in H as [Hc Hrest].
  rewrite Hc, IH by exact Hrest. reflexivity.
Qed.

(** X11: when the extractor yields a function, the call returns that very
    function, name and all, exactly when the extractor's name contains no
    '.'; a name with a '.' always comes back changed. *)
Theorem X11_dotless_name_is_kept
    (FILE : string) (extractCodeRegion : Function -> BasicBlock -> option Function)
    (Fn : Function) (BB : BasicBlock) (o : Function) :
  extractCodeRegion Fn BB = Some o ->
  (LLVMPY_ExtractBasicBlock FILE extractCodeRegion (VFunction Fn) (VBasicBlock BB)
     = Ret (VFunction o)
   <-> occurs "."%char (getName o) = false).
Proof.
  intros HE. rewrite (Extract_outlined FILE extractCodeRegion Fn BB o HE). split.
  - intros H. injection H as H.
    destruct (occurs "."%char (getName o)) eqn:Hdot; [exfalso|reflexivity].
    pose proof (std_replace_length (getName o) "."%char "_"%char) as Hlen.
    pose proof (std_replace_nonempty (getName o) "."%char "_"%char Hdot) as Hnonempty.
    pose proof (std_replace_occurs (getName o) "."%char "_"%char ltac:(discriminate))
      as Hsan.
    set (san := std_replace (getName o) "."%char "_"%char) in *.
    assert (getName o <> san) as Hne by (intros Heq; congruence).
    assert (getName (setName o san) = getName o) as Hname by (rewrite H; reflexivity).
    destruct (decide (san ∈ vmap (fn_symtab o))) as [Hin|Hfree].
    + destruct (setName_clash o san Hne Hin Hnonempty) as (n & Hn & _).
      rewrite Hn in Hname. apply (f_equal String.length) in Hname.
      rewrite !String_length_app in Hname. simpl in Hname. lia.
    + rewrite (setName_free o san Hfree) in Hname. congruence.
  - intros H. rewrite std_replace_absent by exact H.
    rewrite setName_unchanged. reflexivity.
Qed.

Lemma X11_dotless_name_witness :
  LLVMPY_ExtractBasicBlock sample_FILE (fun _ _ => Some fn_foo)
    (VFunction fn_foo) (VBasicBlock bb_of_foo) = Ret (VFunction fn_foo)
  <-> occurs "."%char (getName fn_foo) = false.
Proof.
  apply (X11_dotless_name_is_kept sample_FILE (fun _ _ => Some fn_foo)
           fn_foo bb_of_foo fn_foo).
  reflexivity.
Defined.

(** X13: when the extractor yields a function and no other value of the
    module has the sanitised name, the call returns the function under
    exactly that name: the extractor's name with every '.' replaced by '_',
    of the same length, and without a '.'. *)
Theorem X13_free_name_is_sanitised
    (FILE : string) (extractCodeRegion : Function -> BasicBlock -> option Function)
    (Fn : Function) (BB : BasicBlock) (o : Function) :
  extractCodeRegion Fn BB = Some o ->
  std_replace (getName o) "."%char "_"%char ∉ vmap (fn_symtab o) ->
  exists Outlined : Function,
    LLVMPY_ExtractBasicBlock FILE extractCodeRegion (VFunction Fn) (VBasicBlock BB)
      = Ret (VFunction Outlined)
    /\ getName Outlined = std_replace (getName o) "."%char "_"%char
    /\ String.length (getName Outlined) = String.length (getName o)
    /\ occurs "."%char (getName Outlined) = false.
Proof.
  intros HE Hfree.
  exists (setName o (std_replace (getName o) "."%char "_"%char)).
  split; [apply Extract_outlined; exact HE|].
  rewrite (setName_free o _ Hfree).
  split; [reflexivity|]. split; [apply std_replace_length|].
  apply std_replace_occurs. discriminate.
Qed.

Lemma X13_free_name_witness :
  exists Outlined : Function,
    LLVMPY_ExtractBasicBlock sample_FILE extract_from_parent
      (VFunction fn_foo) (VBasicBlock bb_of_foo) = Ret (VFunction Outlined)
    /\ getName Outlined = std_replace "foo.bblock_extract" "."%char "_"%char
    /\ String.length (getName Outlined) = String.length "foo.bblock_extract"
    /\ occurs "."%char (getName Outlined) = false.
Proof.
  apply (X13_free_name_is_sanitised sample_FILE extract_from_parent fn_foo bb_of_foo
           {| fn_name := "foo.bblock_extract"; fn_attributes := [];
              fn_symtab := {| vmap := ["foo"]; LastUnique := 0 |} |}).
  - reflexivity.
  - cbn [getName fn_name fn_symtab vmap]. intros H.
    apply list_elem_of_In in H. simpl in H. destruct H as [H|[]]. discriminate.
Defined.

Lemma StringRef_prefix (Name rest : string) :
  StringRef (Name +:+ rest) (String.length Name) = Name.
Proof.
  unfold StringRef. induction Name as [|c Name IH].
  - destruct rest; reflexivity.
  - simpl. f_equal. exact IH.
Qed.

(** X12: [LLVMPY_GetEnumAttributeKindForName] looks at the first [len] bytes
    of the name and at nothing after them: whatever follows a name in the
    buffer, the call with the name's length returns what it returns for the
    name alone. *)
Theorem X12_enum_kind_reads_len_bytes
    (AttrKindNames : gmap string positive) (name rest : string) :
  LLVMPY_GetEnumAttributeKindForName AttrKindNames (name +:+ rest) (String.length name)
  = LLVMPY_GetEnumAttributeKindForName AttrKindNames name (String.length name).
Proof.
  unfold LLVMPY_GetEnumAttributeKindForName, LLVMGetEnumAttributeKindForName.
  rewrite StringRef_prefix, StringRef_whole. reflexivity.
Qed.
